(** * Verification of the stopwatch package (stopwatch.go)

    The development embeds the Go source shallowly: every method of
    [Stopwatch] is a computation in a small monad that threads the
    stopwatch's fields, reads the wall clock, and logs the lock operations
    and field accesses it performs.

    - Durations are Go [int64] values; [+], [-] and unary [-] wrap around.
    - Instants are nanosecond counts from the zero instant of [time.Time],
      on one time line for the wall clock and the monotonic clock, and
      unbounded (Go's range of instants is far wider than that of
      durations); [Time.Sub] saturates as in Go.
    - [float64] is IEEE 754 binary64 as given by the Standard Library's
      [SpecFloat]; [%.3f] rounds the exact binary value to thousandths,
      ties to even.
    - [Lap.String] and [time.Duration.String] are declared outside
      stopwatch.go and are parameters.
    - A formatter is the caller's function: called on a duration it returns
      a string or panics, and so does [String] when it calls it. *)

From Stdlib Require Import ZArith List String Ascii Bool Lia Sorted.
From Stdlib Require Import SpecFloat.
Import ListNotations.

Local Open Scope Z_scope.

(* ================================================================== *)
(** ** Go's [time] package, as far as the stopwatch uses it            *)
(* ================================================================== *)

(** [time.Duration] is an [int64] count of nanoseconds. *)
Definition Duration := Z.

Definition minDuration : Duration := - 2 ^ 63.
Definition maxDuration : Duration := 2 ^ 63 - 1.

Definition is_duration (d : Z) : Prop := minDuration <= d <= maxDuration.

(** Two's complement wrap-around of [int64] arithmetic. *)
Definition wrap64 (z : Z) : Duration := (z + 2 ^ 63) mod 2 ^ 64 - 2 ^ 63.

Definition dur_add (a b : Duration) : Duration := wrap64 (a + b).
Definition dur_sub (a b : Duration) : Duration := wrap64 (a - b).
Definition dur_neg (a : Duration) : Duration := wrap64 (- a).

(** [Duration.Microseconds]: integer division by 1000, truncated toward
    zero as Go's [/] on integers is. *)
Definition Microseconds (d : Duration) : Z := Z.quot d 1000.

(** [time.Time]: an instant, counted in nanoseconds from the zero instant
    (January 1, year 1, 00:00:00 UTC), the value of [time.Time{}]. *)
Definition Time := Z.

Definition zeroTime : Time := 0.

Definition IsZero (t : Time) : bool := t =? zeroTime.

Definition Time_Add (t : Time) (d : Duration) : Time := t + d.

(** [Time.Sub] returns the maximum (minimum) duration when the difference
    does not fit into a [Duration]. *)
Definition sat64 (z : Z) : Duration :=
  if z <? minDuration then minDuration
  else if maxDuration <? z then maxDuration
  else z.

Definition Time_Sub (t u : Time) : Duration := sat64 (t - u).

(* ================================================================== *)
(** ** Strings and [fmt]                                               *)
(* ================================================================== *)

Definition dquote : string := String "034"%char EmptyString.

(** [strings.Join]. *)
Definition Join (elems : list string) (sep : string) : string :=
  String.concat sep elems.

(** *** [float64] and the verb [%.3f] *)

Definition float64 := spec_float.

Definition f64_prec : Z := 53.
Definition f64_emax : Z := 1024.

(** Conversion [float64(n)] of an integer: nearest value, ties to even. *)
Definition float64_of_int (n : Z) : float64 :=
  binary_normalize f64_prec f64_emax n 0 false.

Definition float64_div (x y : float64) : float64 :=
  SFdiv f64_prec f64_emax x y.

(** The literal [1000.0]. *)
Definition f64_1000 : float64 := float64_of_int 1000.

Definition digit_char (d : Z) : ascii := ascii_of_nat (48 + Z.to_nat d).

(** Decimal numeral of a natural number, most significant digit first. *)
Fixpoint dec_digits (fuel : nat) (n : Z) (acc : string) : string :=
  match fuel with
  | O => acc
  | S fuel' =>
      let acc' := String (digit_char (n mod 10)) acc in
      if n / 10 =? 0 then acc' else dec_digits fuel' (n / 10) acc'
  end.

Definition dec_of_Z (n : Z) : string :=
  dec_digits (S (Z.to_nat (Z.log2 n))) n EmptyString.

(** The three digits after the decimal point. *)
Definition frac3 (r : Z) : string :=
  String (digit_char (r / 100))
    (String (digit_char (r / 10 mod 10))
       (String (digit_char (r mod 10)) EmptyString)).

(** The value [m * 2^e * 1000] rounded to the nearest integer, ties to
    even: the thousandths that [%.3f] prints. *)
Definition round_thousandths (m : positive) (e : Z) : Z :=
  let num := Z.pos m * 1000 in
  match e with
  | Zneg p =>
      let den := 2 ^ Z.pos p in
      let q := num / den in
      let r := num mod den in
      match 2 * r ?= den with
      | Lt => q
      | Gt => q + 1
      | Eq => if Z.even q then q else q + 1
      end
  | _ => num * 2 ^ e
  end.

Definition sign_string (s : bool) : string :=
  if s then "-"%string else EmptyString.

Definition fixed3 (s : bool) (thousandths : Z) : string :=
  (sign_string s ++ dec_of_Z (thousandths / 1000) ++ "." ++
   frac3 (thousandths mod 1000))%string.

(** [fmt.Sprintf("%.3f", x)]. *)
Definition Sprintf_3f (x : float64) : string :=
  match x with
  | S754_nan => "NaN"%string
  | S754_infinity false => "+Inf"%string
  | S754_infinity true => "-Inf"%string
  | S754_zero s => fixed3 s 0
  | S754_finite s m e => fixed3 s (round_thousandths m e)
  end.

(** The text the specification gives for a lap value in ms-object mode:
    the whole number of microseconds [us] divided by 1000, written as a
    decimal numeral with three digits after the point. *)
Definition exact_ms_text (us : Z) : string :=
  fixed3 (us <? 0) (Z.abs us).

Definition is_digit (c : ascii) : bool :=
  (48 <=? nat_of_ascii c)%nat && (nat_of_ascii c <=? 57)%nat.

Fixpoint all_digits (s : string) : bool :=
  match s with
  | EmptyString => true
  | String c s' => is_digit c && all_digits s'
  end.

(** A decimal numeral with exactly three digits after the point. *)
Definition three_decimals (text : string) : Prop :=
  exists sign int frac : string,
    text = (sign ++ int ++ "." ++ frac)%string /\
    (sign = EmptyString \/ sign = "-"%string) /\
    int <> EmptyString /\ all_digits int = true /\
    String.length frac = 3%nat /\ all_digits frac = true.

(** Reading a numeral back: the number its digits spell, every other
    character skipped.  For a text with three decimals this is the number
    of thousandths. *)
Fixpoint read_digits (v : Z) (s : string) : Z :=
  match s with
  | EmptyString => v
  | String c s' =>
      if is_digit c
      then read_digits (10 * v + (Z.of_nat (nat_of_ascii c) - 48)) s'
      else read_digits v s'
  end.

(** *** Auxiliary notions for binary64 rounding *)

(** The least exponent of binary64. *)
Definition emin64 : Z := -1074.

(** The location of a value once the last bit of its mantissa is dropped:
    [odd] is that bit, [l] the location before. *)
Definition loc_shift1 (odd : bool) (l : location) : location :=
  match odd, l with
  | false, loc_Exact => loc_Exact
  | false, _ => loc_Inexact Lt
  | true, loc_Exact => loc_Inexact Eq
  | true, _ => loc_Inexact Gt
  end.

(** The mantissa of [1000.0]: [1000 * 2^43]. *)
Definition m1000 : positive := 8796093022208000.


(* ================================================================== *)
(** ** The data model                                                  *)
(* ================================================================== *)

Section StopwatchModel.

(** [map[string]interface{}]: the stopwatch stores and returns such a map
    without ever looking into it, so its representation is left open.
    [nil_map] is Go's [nil]. *)
Context {MapData : Type}.
Variable nil_map : MapData.

(** [time.Duration.String] of Go's standard library. *)
Variable Duration_String : Duration -> string.

(** A Go function value of type [func(time.Duration) string].  The outer
    [None] is the [nil] function, which panics when called; a function that
    is not [nil] is the caller's code, which on a given duration returns a
    string or panics (the inner [None]). *)
Definition Formatter := option (Duration -> option string).

Record Lap := mkLap {
  lap_formatter : Formatter;
  lap_state : string;
  lap_duration : Duration;
  lap_data : MapData
}.

(** [Lap.String], declared with the [Lap] type outside stopwatch.go.
    [None] stands for a panic. *)
Variable Lap_String : Lap -> option string.

Definition FormattingMode := string.

Definition FormattingModeJsonArray : FormattingMode := "JSON_ARRAY"%string.
Definition FormattingModeJsonSimpleObject : FormattingMode := "JSON_OBJECT"%string.
Definition FormattingModeJsonMsObject : FormattingMode := "JSON_OBJECT_MS"%string.
Definition defaultFormattingMode : FormattingMode := FormattingModeJsonArray.

Record Stopwatch := mkStopwatch {
  start : Time;
  stop : Time;
  mark : Duration;
  laps : list Lap;
  formatter : Formatter;
  formattingMode : FormattingMode
}.

(** The zero value [var sw Stopwatch]. *)
Definition zeroStopwatch : Stopwatch :=
  mkStopwatch zeroTime zeroTime 0 [] None EmptyString.

Definition defaultFormatter : Duration -> option string :=
  fun duration => Some (Duration_String duration).

(* ================================================================== *)
(** ** The monad of stopwatch methods                                  *)
(* ================================================================== *)

Inductive Field :=
  Fstart | Fstop | Fmark | Flaps | Fformatter | FformattingMode.

(** What a method does to the embedded [sync.RWMutex] and to the fields. *)
Inductive Event :=
| EvLock | EvUnlock | EvRLock | EvRUnlock
| EvRead (f : Field) | EvWrite (f : Field).

(** A method runs against the wall clock reading [clock] and the fields
    of its receiver; it yields a result, the receiver's new fields and
    the events in program order. *)
Definition M (A : Type) : Type :=
  Time -> Stopwatch -> A * Stopwatch * list Event.

Definition ret {A} (a : A) : M A := fun _ s => (a, s, []).

Definition bind {A B} (m : M A) (k : A -> M B) : M B :=
  fun clock s =>
    let '(a, s1, t1) := m clock s in
    let '(b, s2, t2) := k a clock s1 in
    (b, s2, t1 ++ t2).

Notation "x <- m ;; k" := (bind m (fun x => k))
  (at level 61, m at next level, right associativity).
Notation "m ;; k" := (bind m (fun _ => k))
  (at level 61, right associativity).

Definition result {A} (m : M A) (clock : Time) (s : Stopwatch) : A :=
  fst (fst (m clock s)).
Definition exec {A} (m : M A) (clock : Time) (s : Stopwatch) : Stopwatch :=
  snd (fst (m clock s)).
Definition events {A} (m : M A) (clock : Time) (s : Stopwatch) : list Event :=
  snd (m clock s).

(** [time.Now()] and [time.Since(t)]. *)
Definition time_Now : M Time := fun clock s => (clock, s, []).

Definition time_Since (t : Time) : M Duration :=
  now <- time_Now ;; ret (Time_Sub now t).

(** The four operations of the mutex. *)
Definition emit (e : Event) : M unit := fun _ s => (tt, s, [e]).

Definition Lock : M unit := emit EvLock.
Definition Unlock : M unit := emit EvUnlock.
Definition RLock : M unit := emit EvRLock.
Definition RUnlock : M unit := emit EvRUnlock.

(** Field reads and writes. *)
Definition load {A} (f : Field) (proj : Stopwatch -> A) : M A :=
  fun _ s => (proj s, s, [EvRead f]).

Definition store (f : Field) (upd : Stopwatch -> Stopwatch) : M unit :=
  fun _ s => (tt, upd s, [EvWrite f]).

Definition get_start := load Fstart start.
Definition get_stop := load Fstop stop.
Definition get_mark := load Fmark mark.
Definition get_laps := load Flaps laps.
Definition get_formatter := load Fformatter formatter.
Definition get_formattingMode := load FformattingMode formattingMode.

Definition set_start (v : Time) := store Fstart (fun s =>
  mkStopwatch v (stop s) (mark s) (laps s) (formatter s) (formattingMode s)).
Definition set_stop (v : Time) := store Fstop (fun s =>
  mkStopwatch (start s) v (mark s) (laps s) (formatter s) (formattingMode s)).
Definition set_mark (v : Duration) := store Fmark (fun s =>
  mkStopwatch (start s) (stop s) v (laps s) (formatter s) (formattingMode s)).
Definition set_laps (v : list Lap) := store Flaps (fun s =>
  mkStopwatch (start s) (stop s) (mark s) v (formatter s) (formattingMode s)).
Definition set_formatter (v : Formatter) := store Fformatter (fun s =>
  mkStopwatch (start s) (stop s) (mark s) (laps s) v (formattingMode s)).
Definition set_formattingMode (v : FormattingMode) :=
  store FformattingMode (fun s =>
  mkStopwatch (start s) (stop s) (mark s) (laps s) (formatter s) v).

(* ================================================================== *)
(** ** The methods of stopwatch.go                                     *)
(* ================================================================== *)

(** [defer s.Unlock()] runs when the method returns: the methods below
    perform it as their last step, before handing back the result. *)

Definition SetFormatter (f : Formatter) : M unit :=
  Lock ;;
  set_formatter f ;;
  Unlock.

Definition SetFormattingMode (newMode : FormattingMode) : M unit :=
  Lock ;;
  set_formattingMode newMode ;;
  Unlock.

Definition defaultedFormattingMode (src : FormattingMode) : FormattingMode :=
  if String.eqb src EmptyString then defaultFormattingMode else src.

Definition Reset (offset : Duration) (active : bool) : M unit :=
  now <- time_Now ;;
  Lock ;;
  set_start (Time_Add now (dur_neg offset)) ;;
  (if active then set_stop zeroTime else set_stop now) ;;
  set_mark 0 ;;
  set_laps [] ;;
  Unlock.

Definition active : M bool :=
  s_stop <- get_stop ;; ret (IsZero s_stop).

Definition Stop : M unit :=
  Lock ;;
  a <- active ;;
  (if a then now <- time_Now ;; set_stop now else ret tt) ;;
  Unlock.

Definition Start : M unit :=
  Lock ;;
  a <- active ;;
  (if negb a then
     s_stop <- get_stop ;;
     diff <- time_Since s_stop ;;
     s_start <- get_start ;;
     set_start (Time_Add s_start diff) ;;
     set_stop zeroTime
   else ret tt) ;;
  Unlock.

Definition ElapsedTime : M Duration :=
  a <- active ;;
  if a then
    s_start <- get_start ;;
    time_Since s_start
  else
    s_stop <- get_stop ;;
    s_start <- get_start ;;
    ret (Time_Sub s_stop s_start).

Definition ElapsedTimeFrom (now : Time) : M Duration :=
  a <- active ;;
  if a then
    s_start <- get_start ;;
    ret (Time_Sub now s_start)
  else
    s_stop <- get_stop ;;
    s_start <- get_start ;;
    ret (Time_Sub s_stop s_start).

Definition LapTime : M Duration :=
  RLock ;;
  e <- ElapsedTime ;;
  s_mark <- get_mark ;;
  RUnlock ;;
  ret (dur_sub e s_mark).

Definition LapWithDataAndTime (now : Time) (state : string) (data : MapData)
  : M Lap :=
  Lock ;;
  elapsed <- ElapsedTimeFrom now ;;
  s_formatter <- get_formatter ;;
  s_mark <- get_mark ;;
  let lap := mkLap s_formatter state (dur_sub elapsed s_mark) data in
  set_mark elapsed ;;
  s_laps <- get_laps ;;
  set_laps (s_laps ++ [lap]) ;;
  Unlock ;;
  ret lap.

Definition LapWithData (state : string) (data : MapData) : M Lap :=
  now <- time_Now ;;
  LapWithDataAndTime now state data.

Definition Lap_ (state : string) : M Lap :=
  LapWithData state nil_map.

Definition Laps : M (list Lap) :=
  RLock ;;
  s_laps <- get_laps ;;
  RUnlock ;;
  ret s_laps.

(** Results of the per-lap renderers, [None] as soon as one panics. *)
Fixpoint collect (f : Lap -> option string) (ls : list Lap)
  : option (list string) :=
  match ls with
  | [] => Some []
  | l :: ls' =>
      match f l with
      | None => None
      | Some r =>
          match collect f ls' with
          | None => None
          | Some rs => Some (r :: rs)
          end
      end
  end.

Definition formatAsObject (lapValueFormatter : Lap -> option string)
  : M (option string) :=
  s_laps <- get_laps ;;
  ret (option_map (fun results => ("{" ++ Join results ", " ++ "}")%string)
         (collect lapValueFormatter s_laps)).

(** [lap.formatter(lap.duration)]: a panic when the formatter is [nil] or
    panics itself. *)
Definition call_formatter (lap : Lap) : option string :=
  match lap_formatter lap with
  | None => None
  | Some f => f (lap_duration lap)
  end.

(** [fmt.Sprintf(`"%s":"%s"`, lap.state, lap.formatter(lap.duration))] *)
Definition simpleObjectEntry (lap : Lap) : option string :=
  match call_formatter lap with
  | None => None
  | Some text =>
      Some (dquote ++ lap_state lap ++ dquote ++ ":" ++
            dquote ++ text ++ dquote)%string
  end.

(** [fmt.Sprintf(`"%s":%.3f`, lap.state,
                 float64(lap.duration.Microseconds())/1000.0)] *)
Definition msValue (d : Duration) : float64 :=
  float64_div (float64_of_int (Microseconds d)) f64_1000.

Definition msObjectEntry (lap : Lap) : option string :=
  Some (dquote ++ lap_state lap ++ dquote ++ ":" ++
        Sprintf_3f (msValue (lap_duration lap)))%string.

(** The array rendering, the [default] branch of [String]. *)
Definition render_array (ls : list Lap) : option string :=
  option_map (fun results => ("[" ++ Join results ", " ++ "]")%string)
    (collect Lap_String ls).

Definition String_ : M (option string) :=
  RLock ;;
  mode <- get_formattingMode ;;
  r <- (let m := defaultedFormattingMode mode in
        if String.eqb m FormattingModeJsonSimpleObject then
          formatAsObject simpleObjectEntry
        else if String.eqb m FormattingModeJsonMsObject then
          formatAsObject msObjectEntry
        else
          s_laps <- get_laps ;;
          ret (render_array s_laps)) ;;
  RUnlock ;;
  ret r.

Definition MarshalJSON : M (option (list Byte.byte)) :=
  r <- String_ ;;
  ret (option_map list_byte_of_string r).

(** [New] works on a fresh zero value and returns it. *)
Definition New (offset : Duration) (active : bool) : M unit :=
  Reset offset active ;;
  SetFormatter (Some defaultFormatter) ;;
  SetFormattingMode defaultFormattingMode.

Definition New_stopwatch (offset : Duration) (active : bool) (clock : Time)
  : Stopwatch :=
  exec (New offset active) clock zeroStopwatch.

(* ================================================================== *)
(** ** Sessions: sequences of calls                                     *)
(* ================================================================== *)

(** The three lap-recording entry points. *)
Inductive LapCall :=
| CallLap (state : string)
| CallLapWithData (state : string) (data : MapData)
| CallLapWithDataAndTime (now : Time) (state : string) (data : MapData).

Definition lap_call (c : LapCall) : M Lap :=
  match c with
  | CallLap state => Lap_ state
  | CallLapWithData state data => LapWithData state data
  | CallLapWithDataAndTime now state data => LapWithDataAndTime now state data
  end.

(** The reference time a call measures against, when it is made at wall
    clock reading [clock]. *)
Definition ref_time (cc : Time * LapCall) : Time :=
  match snd cc with
  | CallLapWithDataAndTime now _ _ => now
  | _ => fst cc
  end.

(** Lap calls made one after the other, each at its own clock reading;
    the final stopwatch and the laps returned, in call order. *)
Fixpoint run_laps (calls : list (Time * LapCall)) (s : Stopwatch)
  : Stopwatch * list Lap :=
  match calls with
  | [] => (s, [])
  | (clock, c) :: rest =>
      let lap := result (lap_call c) clock s in
      let '(s', ls) := run_laps rest (exec (lap_call c) clock s) in
      (s', lap :: ls)
  end.

(** The value of [mark] before the first call and after each call. *)
Fixpoint mark_history (calls : list (Time * LapCall)) (s : Stopwatch)
  : list Duration :=
  mark s ::
  match calls with
  | [] => []
  | (clock, c) :: rest => mark_history rest (exec (lap_call c) clock s)
  end.

(** Sum of lap durations as a Go loop [sum += lap.duration] computes it. *)
Definition sumDurations (ls : list Lap) : Duration :=
  fold_left dur_add (map lap_duration ls) 0.

(** Any call other than [Reset]. *)
Inductive Op :=
| OpLap (c : LapCall)
| OpStart
| OpStop
| OpSetFormatter (f : Formatter)
| OpSetFormattingMode (newMode : FormattingMode)
| OpElapsedTime
| OpElapsedTimeFrom (now : Time)
| OpLapTime
| OpLaps
| OpString
| OpMarshalJSON.

(** One call at clock reading [clock]: the stopwatch it leaves and the lap
    it records, if it is a lap call. *)
Definition run_op (o : Op) (clock : Time) (s : Stopwatch)
  : Stopwatch * list Lap :=
  match o with
  | OpLap c => (exec (lap_call c) clock s, [result (lap_call c) clock s])
  | OpStart => (exec Start clock s, [])
  | OpStop => (exec Stop clock s, [])
  | OpSetFormatter f => (exec (SetFormatter f) clock s, [])
  | OpSetFormattingMode newMode => (exec (SetFormattingMode newMode) clock s, [])
  | OpElapsedTime => (exec ElapsedTime clock s, [])
  | OpElapsedTimeFrom now => (exec (ElapsedTimeFrom now) clock s, [])
  | OpLapTime => (exec LapTime clock s, [])
  | OpLaps => (exec Laps clock s, [])
  | OpString => (exec String_ clock s, [])
  | OpMarshalJSON => (exec MarshalJSON clock s, [])
  end.

(** A session without [Reset]: the final stopwatch and the laps recorded,
    in order. *)
Fixpoint run_ops (ops : list (Time * Op)) (s : Stopwatch)
  : Stopwatch * list Lap :=
  match ops with
  | [] => (s, [])
  | (clock, o) :: rest =>
      let '(s', ls) := run_ops rest (fst (run_op o clock s)) in
      (s', snd (run_op o clock s) ++ ls)
  end.

Definition is_lap_op (co : Time * Op) : bool :=
  match snd co with OpLap _ => true | _ => false end.

(** The number of lap recordings in a session. *)
Definition lap_count (ops : list (Time * Op)) : nat :=
  List.length (filter is_lap_op ops).

(* ================================================================== *)
(** ** Lock discipline of an event sequence                            *)
(* ================================================================== *)

Definition is_read (e : Event) : bool :=
  match e with EvRead _ => true | _ => false end.

Definition is_access (e : Event) : bool :=
  match e with EvRead _ | EvWrite _ => true | _ => false end.

Definition is_Unlock (e : Event) : bool :=
  match e with EvUnlock => true | _ => false end.

Definition is_RUnlock (e : Event) : bool :=
  match e with EvRUnlock => true | _ => false end.

(** [closes rel ok tr]: [tr] consists of events allowed by [ok] followed
    by exactly one final release [rel]. *)
Fixpoint closes (rel ok : Event -> bool) (tr : list Event) : bool :=
  match tr with
  | [] => false
  | e :: tr' =>
      match tr' with
      | [] => rel e
      | _ :: _ => ok e && closes rel ok tr'
      end
  end.

(** The method takes the write lock before its first field access and
    gives it back after its last one. *)
Definition holds_exclusive (tr : list Event) : bool :=
  match tr with
  | EvLock :: tr' => closes is_Unlock is_access tr'
  | _ => false
  end.

(** The method takes the read lock before its first field access, only
    reads, and gives the lock back after its last access. *)
Definition holds_shared (tr : list Event) : bool :=
  match tr with
  | EvRLock :: tr' => closes is_RUnlock is_read tr'
  | _ => false
  end.

(** The method never touches the mutex. *)
Definition lock_free (tr : list Event) : bool := forallb is_access tr.

(* ================================================================== *)
(** ** Further notions for sessions                                    *)
(* ================================================================== *)

(** The instant a call refers to: the reference time of a lap call, the
    clock reading of any other call. *)
Definition op_time (co : Time * Op) : Time :=
  match snd co with
  | OpLap c => ref_time (fst co, c)
  | _ => fst co
  end.

(** The elapsed time at instant [c0], then at the instant of each call on
    the stopwatch as that call leaves it. *)
Fixpoint elapsed_trace (c0 : Time) (ops : list (Time * Op)) (s : Stopwatch)
  : list Duration :=
  result (ElapsedTimeFrom c0) c0 s ::
  match ops with
  | [] => []
  | (clock, o) :: rest =>
      elapsed_trace (op_time (clock, o)) rest (fst (run_op o clock s))
  end.

(** The sum of lap durations over the integers. *)
Definition total_duration (ls : list Lap) : Z :=
  fold_right (fun lap acc => lap_duration lap + acc) 0 ls.

(** The calls that only read. *)
Definition is_read_op (co : Time * Op) : bool :=
  match snd co with
  | OpElapsedTime | OpElapsedTimeFrom _ | OpLapTime | OpLaps | OpString
  | OpMarshalJSON => true
  | _ => false
  end.

(** Label and data of a lap call. *)
Definition call_state (c : LapCall) : string :=
  match c with
  | CallLap state => state
  | CallLapWithData state _ => state
  | CallLapWithDataAndTime _ state _ => state
  end.

Definition call_data (c : LapCall) : MapData :=
  match c with
  | CallLap _ => nil_map
  | CallLapWithData _ data => data
  | CallLapWithDataAndTime _ _ data => data
  end.

(** Labels and data of the lap calls of a session, in call order. *)
Fixpoint lap_requests (ops : list (Time * Op)) : list (string * MapData) :=
  match ops with
  | [] => []
  | (_, OpLap c) :: rest => (call_state c, call_data c) :: lap_requests rest
  | _ :: rest => lap_requests rest
  end.

(** Pauses: each pair is the clock reading of a [Stop] and of the [Start]
    that follows it. *)
Definition pause_ops (pauses : list (Time * Time)) : list (Time * Op) :=
  flat_map (fun p => [(fst p, OpStop); (snd p, OpStart)]) pauses.

Definition total_pause (pauses : list (Time * Time)) : Z :=
  fold_right (fun p acc => (snd p - fst p) + acc) 0 pauses.

(** The formatter in effect after a session. *)
Fixpoint last_formatter (f : Formatter) (ops : list (Time * Op)) : Formatter :=
  match ops with
  | [] => f
  | (_, OpSetFormatter g) :: rest => last_formatter g rest
  | _ :: rest => last_formatter f rest
  end.

(** A formatter that is not [nil] and returns on every duration. *)
Definition formatter_returns (f : Formatter) : Prop :=
  exists g, f = Some g /\ forall d, g d <> None.

(** A call that, if it sets a formatter, sets one that returns. *)
Definition sets_returning_formatter (co : Time * Op) : Prop :=
  match snd co with
  | OpSetFormatter f => formatter_returns f
  | _ => True
  end.

(** *** The mutex as an automaton *)

Inductive LockState := Free | HeldShared | HeldExclusive.

(** One event against the state of the [sync.RWMutex] as this goroutine
    sees it; [None] when the event is not allowed: an access without the
    lock, a write under the read lock, a release of a lock not held, or an
    acquisition while holding (which blocks forever). *)
Definition lock_step (st : LockState) (e : Event) : option LockState :=
  match st, e with
  | Free, EvLock => Some HeldExclusive
  | Free, EvRLock => Some HeldShared
  | HeldExclusive, EvUnlock => Some Free
  | HeldExclusive, EvRead _ => Some HeldExclusive
  | HeldExclusive, EvWrite _ => Some HeldExclusive
  | HeldShared, EvRUnlock => Some Free
  | HeldShared, EvRead _ => Some HeldShared
  | _, _ => None
  end.

Fixpoint lock_run (st : LockState) (tr : list Event) : option LockState :=
  match tr with
  | [] => Some st
  | e :: tr' =>
      match lock_step st e with
      | None => None
      | Some st' => lock_run st' tr'
      end
  end.

(** The events of one call, and of a session. *)
Definition events_op (o : Op) (clock : Time) (s : Stopwatch) : list Event :=
  match o with
  | OpLap c => events (lap_call c) clock s
  | OpStart => events Start clock s
  | OpStop => events Stop clock s
  | OpSetFormatter f => events (SetFormatter f) clock s
  | OpSetFormattingMode newMode => events (SetFormattingMode newMode) clock s
  | OpElapsedTime => events ElapsedTime clock s
  | OpElapsedTimeFrom now => events (ElapsedTimeFrom now) clock s
  | OpLapTime => events LapTime clock s
  | OpLaps => events Laps clock s
  | OpString => events String_ clock s
  | OpMarshalJSON => events MarshalJSON clock s
  end.

Fixpoint events_ops (ops : list (Time * Op)) (s : Stopwatch) : list Event :=
  match ops with
  | [] => []
  | (clock, o) :: rest =>
      events_op o clock s ++ events_ops rest (fst (run_op o clock s))
  end.

(** The calls that take the lock themselves. *)
Definition is_locking_op (co : Time * Op) : bool :=
  match snd co with
  | OpElapsedTime | OpElapsedTimeFrom _ => false
  | _ => true
  end.

(** Running a method: unfold it down to the monad's operations and let
    the straight-line part compute; what remains branches on whether [stop]
    is the zero instant. *)
Ltac run_method :=
  unfold result, exec, events, New_stopwatch, New, Reset, Stop, Start,
    LapTime, Laps, lap_call, Lap_, LapWithData, LapWithDataAndTime,
    ElapsedTime, ElapsedTimeFrom, active, SetFormatter, SetFormattingMode,
    time_Since, bind;
  cbn.

Ltac by_stop_case s := destruct (IsZero (stop s)); cbn; auto.

(* ================================================================== *)
(** ** Arithmetic of durations                                         *)
(* ================================================================== *)

Lemma wrap64_range z : is_duration (wrap64 z).
Proof.
  unfold is_duration, wrap64, minDuration, maxDuration.
  pose proof (Z.mod_pos_bound (z + 2 ^ 63) (2 ^ 64) ltac:(lia)). lia.
Qed.

Lemma wrap64_small z : is_duration z -> wrap64 z = z.
Proof.
  unfold is_duration, wrap64, minDuration, maxDuration. intros H.
  rewrite Z.mod_small by lia. lia.
Qed.

Lemma wrap64_shift z k : wrap64 (z + k * 2 ^ 64) = wrap64 z.
Proof.
  unfold wrap64.
  replace (z + k * 2 ^ 64 + 2 ^ 63) with (z + 2 ^ 63 + k * 2 ^ 64) by lia.
  now rewrite Z.mod_add by lia.
Qed.

Lemma wrap64_decomp z : exists k, wrap64 z = z + k * 2 ^ 64.
Proof.
  exists (- ((z + 2 ^ 63) / 2 ^ 64)). unfold wrap64.
  pose proof (Z.div_mod (z + 2 ^ 63) (2 ^ 64) ltac:(lia)). lia.
Qed.

Lemma wrap64_add_l a b : wrap64 (wrap64 a + b) = wrap64 (a + b).
Proof.
  destruct (wrap64_decomp a) as [k ->].
  replace (a + k * 2 ^ 64 + b) with (a + b + k * 2 ^ 64) by lia.
  apply wrap64_shift.
Qed.

Lemma wrap64_add_r a b : wrap64 (a + wrap64 b) = wrap64 (a + b).
Proof. rewrite Z.add_comm, wrap64_add_l. f_equal. lia. Qed.

Lemma wrap64_zero : wrap64 0 = 0.
Proof. reflexivity. Qed.

Lemma dur_sub_diag a : dur_sub a a = 0.
Proof. unfold dur_sub. now rewrite Z.sub_diag. Qed.

Lemma dur_sub_exact a b : is_duration (a - b) -> dur_sub a b = a - b.
Proof. apply wrap64_small. Qed.

Lemma dur_neg_exact o : minDuration < o <= maxDuration -> dur_neg o = - o.
Proof.
  intros H. apply wrap64_small. unfold is_duration, minDuration, maxDuration in *. lia.
Qed.

Lemma sat64_range z : is_duration (sat64 z).
Proof.
  unfold is_duration, sat64, minDuration, maxDuration.
  destruct (Z.ltb_spec z (- 2 ^ 63)); [lia|].
  destruct (Z.ltb_spec (2 ^ 63 - 1) z); lia.
Qed.

Lemma sat64_small z : is_duration z -> sat64 z = z.
Proof.
  unfold is_duration, sat64, minDuration, maxDuration. intros H.
  destruct (Z.ltb_spec z (- 2 ^ 63)); [lia|].
  destruct (Z.ltb_spec (2 ^ 63 - 1) z); lia.
Qed.

Lemma sat64_mono a b : a <= b -> sat64 a <= sat64 b.
Proof.
  unfold sat64, minDuration, maxDuration. intros H.
  destruct (Z.ltb_spec a (- 2 ^ 63)), (Z.ltb_spec b (- 2 ^ 63));
    destruct (Z.ltb_spec (2 ^ 63 - 1) a), (Z.ltb_spec (2 ^ 63 - 1) b); lia.
Qed.

Lemma Time_Sub_range t u : is_duration (Time_Sub t u).
Proof. apply sat64_range. Qed.

(* ================================================================== *)
(** ** What the methods compute                                        *)
(* ================================================================== *)

Lemma ElapsedTimeFrom_result now clock s :
  result (ElapsedTimeFrom now) clock s =
  if IsZero (stop s) then Time_Sub now (start s)
  else Time_Sub (stop s) (start s).
Proof. run_method. by_stop_case s. Qed.

Lemma ElapsedTime_result clock s :
  result ElapsedTime clock s =
  if IsZero (stop s) then Time_Sub clock (start s)
  else Time_Sub (stop s) (start s).
Proof. run_method. by_stop_case s. Qed.

Lemma ElapsedTime_is_ElapsedTimeFrom clock s :
  result ElapsedTime clock s = result (ElapsedTimeFrom clock) clock s.
Proof. now rewrite ElapsedTime_result, ElapsedTimeFrom_result. Qed.

Lemma ElapsedTimeFrom_range now clock s :
  is_duration (result (ElapsedTimeFrom now) clock s).
Proof.
  rewrite ElapsedTimeFrom_result. destruct (IsZero (stop s)); apply Time_Sub_range.
Qed.

Lemma LapWithDataAndTime_run now state data clock s :
  let elapsed := result (ElapsedTimeFrom now) clock s in
  let lap := mkLap (formatter s) state (dur_sub elapsed (mark s)) data in
  result (LapWithDataAndTime now state data) clock s = lap /\
  exec (LapWithDataAndTime now state data) clock s =
    mkStopwatch (start s) (stop s) elapsed (laps s ++ [lap])
      (formatter s) (formattingMode s).
Proof.
  run_method. by_stop_case s.
Qed.

Lemma lap_call_as_LapWithDataAndTime c clock s :
  exists state data,
    result (lap_call c) clock s =
      result (LapWithDataAndTime (ref_time (clock, c)) state data) clock s /\
    exec (lap_call c) clock s =
      exec (LapWithDataAndTime (ref_time (clock, c)) state data) clock s.
Proof.
  destruct c as [state | state data | now state data];
    [exists state, nil_map | exists state, data | exists state, data];
    run_method; by_stop_case s.
Qed.

(** One lap call, whichever entry point is used. *)
Lemma lap_call_run c clock s :
  let elapsed := result (ElapsedTimeFrom (ref_time (clock, c))) clock s in
  lap_duration (result (lap_call c) clock s) = dur_sub elapsed (mark s) /\
  mark (exec (lap_call c) clock s) = elapsed /\
  start (exec (lap_call c) clock s) = start s /\
  stop (exec (lap_call c) clock s) = stop s /\
  laps (exec (lap_call c) clock s) = laps s ++ [result (lap_call c) clock s].
Proof.
  destruct (lap_call_as_LapWithDataAndTime c clock s) as (state & data & Hr & He).
  destruct (LapWithDataAndTime_run (ref_time (clock, c)) state data clock s) as [Hr' He'].
  cbv zeta. rewrite Hr, He, Hr', He'. cbn. auto.
Qed.

Lemma Stop_exec clock s :
  exec Stop clock s =
  if IsZero (stop s) then
    mkStopwatch (start s) clock (mark s) (laps s) (formatter s) (formattingMode s)
  else s.
Proof. run_method. by_stop_case s. Qed.

Lemma Start_exec clock s :
  exec Start clock s =
  if IsZero (stop s) then s
  else mkStopwatch (Time_Add (start s) (Time_Sub clock (stop s))) zeroTime
         (mark s) (laps s) (formatter s) (formattingMode s).
Proof. run_method. by_stop_case s. Qed.

Lemma Reset_exec offset act clock s :
  exec (Reset offset act) clock s =
  mkStopwatch (Time_Add clock (dur_neg offset)) (if act then zeroTime else clock)
    0 [] (formatter s) (formattingMode s).
Proof. run_method. now destruct act. Qed.

Lemma New_stopwatch_eq offset act clock :
  New_stopwatch offset act clock =
  mkStopwatch (Time_Add clock (dur_neg offset)) (if act then zeroTime else clock)
    0 [] (Some defaultFormatter) defaultFormattingMode.
Proof. run_method. now destruct act. Qed.

(** claim C1: [LapWithDataAndTime] computes the elapsed time with
    [ElapsedTimeFrom] at the reference time, returns a lap whose duration
    is that elapsed time minus the mark held before the call (Go's
    [Duration] subtraction, which is the difference of the two whenever
    that is a [Duration]), whose state and data are the arguments and
    whose formatter is the stopwatch's current one; afterwards [mark] is the
    elapsed time, the lap is the last element of the history, the earlier
    laps are as before and no other field has changed.  [LapWithData] is
    this call at the current clock reading, [Lap] moreover with nil data. *)
Theorem C1_LapWithDataAndTime_records_lap
  (s : Stopwatch) (clock now : Time) (state : string) (data : MapData) :
  let elapsed := result (ElapsedTimeFrom now) clock s in
  let lap := result (LapWithDataAndTime now state data) clock s in
  let s' := exec (LapWithDataAndTime now state data) clock s in
  (lap_duration lap = dur_sub elapsed (mark s) /\
   (is_duration (elapsed - mark s) -> lap_duration lap = elapsed - mark s) /\
   lap_state lap = state /\
   lap_data lap = data /\
   lap_formatter lap = formatter s) /\
  (mark s' = elapsed /\
   laps s' = laps s ++ [lap] /\
   start s' = start s /\ stop s' = stop s /\
   formatter s' = formatter s /\ formattingMode s' = formattingMode s) /\
  (LapWithData state data clock s =
     LapWithDataAndTime clock state data clock s /\
   Lap_ state clock s = LapWithDataAndTime clock state nil_map clock s).
Proof.
  cbv zeta.
  destruct (LapWithDataAndTime_run now state data clock s) as [Hr He].
  rewrite Hr, He. cbn. repeat split;
    try apply dur_sub_exact; run_method; by_stop_case s.
Qed.

(* ================================================================== *)
(** ** Sequences of lap calls                                          *)
(* ================================================================== *)

Lemma run_laps_cons clock c rest s :
  run_laps ((clock, c) :: rest) s =
  (fst (run_laps rest (exec (lap_call c) clock s)),
   result (lap_call c) clock s :: snd (run_laps rest (exec (lap_call c) clock s))).
Proof. cbn. now destruct (run_laps rest (exec (lap_call c) clock s)). Qed.

Lemma ElapsedTimeFrom_frame now clock s s' :
  start s' = start s -> stop s' = stop s ->
  result (ElapsedTimeFrom now) clock s' = result (ElapsedTimeFrom now) clock s.
Proof. intros H1 H2. now rewrite !ElapsedTimeFrom_result, H1, H2. Qed.

Lemma String_exec clock s : exec String_ clock s = s.
Proof.
  unfold exec, String_, formatAsObject, bind; cbn.
  destruct (String.eqb _ FormattingModeJsonSimpleObject); [reflexivity|].
  destruct (String.eqb _ FormattingModeJsonMsObject); reflexivity.
Qed.

Lemma MarshalJSON_exec clock s : exec MarshalJSON clock s = s.
Proof.
  pose proof (String_exec clock s) as H. unfold exec, MarshalJSON, bind in *.
  destruct (String_ clock s) as [[r s1] t1]. exact H.
Qed.

(** One call extends the history by the lap it records, if any. *)
Lemma run_op_history o clock s :
  laps (fst (run_op o clock s)) = laps s ++ snd (run_op o clock s).
Proof.
  destruct o as [c| | |f|m| |now| | | |]; cbn [run_op fst snd];
    [now destruct (lap_call_run c clock s) as (_ & _ & _ & _ & H) | ..];
    rewrite ?String_exec, ?MarshalJSON_exec, ?app_nil_r; try reflexivity;
    run_method; by_stop_case s.
Qed.

(** A call that is not a lap call records nothing and keeps the mark. *)
Lemma run_op_no_lap o clock s :
  is_lap_op (clock, o) = false ->
  snd (run_op o clock s) = [] /\ mark (fst (run_op o clock s)) = mark s.
Proof.
  destruct o as [c| | |f|m| |now| | | |]; cbn [is_lap_op snd run_op fst];
    try discriminate; intros _; split; try reflexivity;
    rewrite ?String_exec, ?MarshalJSON_exec; try reflexivity;
    run_method; by_stop_case s.
Qed.

Lemma run_ops_cons clock o rest s :
  run_ops ((clock, o) :: rest) s =
  (fst (run_ops rest (fst (run_op o clock s))),
   snd (run_op o clock s) ++ snd (run_ops rest (fst (run_op o clock s)))).
Proof. cbn [run_ops]. now destruct (run_ops rest (fst (run_op o clock s))). Qed.

Lemma run_ops_app l1 l2 : forall s,
  run_ops (l1 ++ l2) s =
  (fst (run_ops l2 (fst (run_ops l1 s))),
   snd (run_ops l1 s) ++ snd (run_ops l2 (fst (run_ops l1 s)))).
Proof.
  induction l1 as [|[clock o] l1 IH]; intros s.
  - cbn. now destruct (run_ops l2 s).
  - rewrite <- app_comm_cons, !run_ops_cons, IH. cbn [fst snd].
    now rewrite app_assoc.
Qed.

(** A session only extends the history, by the laps it records, one for
    each lap call. *)
Lemma run_ops_history ops : forall s,
  laps (fst (run_ops ops s)) = laps s ++ snd (run_ops ops s) /\
  List.length (snd (run_ops ops s)) = lap_count ops.
Proof.
  induction ops as [|[clock o] rest IH]; intros s.
  - cbn. now rewrite app_nil_r.
  - rewrite run_ops_cons. cbn [fst snd].
    destruct (IH (fst (run_op o clock s))) as [H1 H2].
    rewrite H1, run_op_history, app_assoc, length_app, H2. split; [reflexivity|].
    unfold lap_count. cbn [filter]. destruct o; reflexivity.
Qed.

(** The durations telescope: in [int64] arithmetic their sum is the
    distance the mark has travelled, whatever else is called in between. *)
Lemma run_ops_telescope ops : forall s a,
  fold_left dur_add (map lap_duration (snd (run_ops ops s))) (wrap64 a) =
  wrap64 (a + mark (fst (run_ops ops s)) - mark s).
Proof.
  induction ops as [|[clock o] rest IH]; intros s a.
  - cbn. f_equal. lia.
  - rewrite run_ops_cons. cbn [fst snd]. rewrite map_app, fold_left_app.
    destruct (is_lap_op (clock, o)) eqn:E.
    + destruct o as [c| | |f|m| |now| | | |]; try discriminate.
      cbn [run_op fst snd map fold_left].
      destruct (lap_call_run c clock s) as (Hd & Hm & _).
      rewrite Hd. unfold dur_add at 2, dur_sub.
      rewrite wrap64_add_l, wrap64_add_r, IH, Hm. f_equal. lia.
    + destruct (run_op_no_lap o clock s E) as [-> Hm].
      cbn [map fold_left]. rewrite IH, Hm. reflexivity.
Qed.

(** claim C2: in a session without [Reset] that starts with the mark at zero and
    ends with a lap call, the [N >= 1] laps recorded are the ones appended
    to the history, and their durations, summed in [Duration] arithmetic,
    are the elapsed time [ElapsedTimeFrom] yields for the last call's
    reference time, both on the stopwatch as the last call found it and as
    it left it. *)
Theorem C2_lap_durations_sum_to_elapsed
  (s : Stopwatch) (ops : list (Time * Op)) (clock : Time) (c : LapCall) :
  mark s = 0 ->
  let session := ops ++ [(clock, OpLap c)] in
  let before_last := fst (run_ops ops s) in
  let s' := fst (run_ops session s) in
  let recorded := snd (run_ops session s) in
  (List.length recorded = lap_count session /\ (1 <= lap_count session)%nat) /\
  laps s' = laps s ++ recorded /\
  sumDurations recorded =
    result (ElapsedTimeFrom (ref_time (clock, c))) clock before_last /\
  sumDurations recorded =
    result (ElapsedTimeFrom (ref_time (clock, c))) clock s'.
Proof.
  intros Hmark. cbv zeta.
  destruct (run_ops_history (ops ++ [(clock, OpLap c)]) s) as (Hl & Hn).
  assert (Hlast : fst (run_ops (ops ++ [(clock, OpLap c)]) s) =
                  exec (lap_call c) clock (fst (run_ops ops s))).
  { rewrite run_ops_app, run_ops_cons. reflexivity. }
  destruct (lap_call_run c clock (fst (run_ops ops s))) as (_ & Hm & Hs & Hp & _).
  assert (Hsum : sumDurations (snd (run_ops (ops ++ [(clock, OpLap c)]) s)) =
                 result (ElapsedTimeFrom (ref_time (clock, c))) clock
                   (fst (run_ops ops s))).
  { unfold sumDurations. rewrite <- wrap64_zero at 1.
    rewrite run_ops_telescope, Hmark, Hlast, Hm, Z.add_0_l, Z.sub_0_r.
    apply wrap64_small, ElapsedTimeFrom_range. }
  repeat split; auto.
  - unfold lap_count. rewrite filter_app, length_app. cbn. lia.
  - rewrite Hsum, Hlast. symmetry. apply ElapsedTimeFrom_frame; auto.
Qed.

(** Every recorded duration is an [int64]. *)
Lemma lap_call_duration_range c clock s :
  is_duration (lap_duration (result (lap_call c) clock s)).
Proof.
  destruct (lap_call_run c clock s) as (Hd & _). rewrite Hd. apply wrap64_range.
Qed.

Lemma run_ops_durations_range ops : forall s,
  Forall (fun lap => is_duration (lap_duration lap)) (snd (run_ops ops s)).
Proof.
  induction ops as [|[clock o] rest IH]; intros s.
  - constructor.
  - rewrite run_ops_cons. cbn [snd]. apply Forall_app. split; [|apply IH].
    destruct o; cbn [run_op snd]; constructor;
      [apply lap_call_duration_range | constructor].
Qed.

(** When no elapsed time met along the way is negative, no subtraction
    wraps around and the durations add up over the integers as well. *)
Lemma run_laps_sum_exact calls : forall s,
  0 <= mark s <= maxDuration ->
  (forall cc, In cc calls ->
     0 <= result (ElapsedTimeFrom (ref_time cc)) (fst cc) s) ->
  fold_right Z.add 0 (map lap_duration (snd (run_laps calls s))) =
  mark (fst (run_laps calls s)) - mark s.
Proof.
  induction calls as [|[clock c] rest IH]; intros s Hm Hpos.
  - cbn. lia.
  - rewrite run_laps_cons. cbn [fst snd map fold_right].
    destruct (lap_call_run c clock s) as (Hd & Hm' & Hs & Hp & _).
    pose proof (Hpos (clock, c) (or_introl eq_refl)) as H0. cbn [fst] in H0.
    pose proof (ElapsedTimeFrom_range (ref_time (clock, c)) clock s) as Hr.
    unfold is_duration, minDuration in Hr.
    rewrite Hd, dur_sub_exact by (unfold is_duration, minDuration, maxDuration in *; lia).
    rewrite IH.
    + rewrite Hm'. lia.
    + rewrite Hm'. lia.
    + intros cc Hin.
      rewrite (ElapsedTimeFrom_frame (ref_time cc) (fst cc) s
                 (exec (lap_call c) clock s)) by auto.
      apply Hpos. now right.
Qed.

(** While the stopwatch is stopped with the mark at the frozen elapsed
    time, a lap call returns duration zero and keeps that situation. *)
Lemma stopped_lap_zero c clock s :
  IsZero (stop s) = false ->
  mark s = Time_Sub (stop s) (start s) ->
  lap_duration (result (lap_call c) clock s) = 0 /\
  IsZero (stop (exec (lap_call c) clock s)) = false /\
  mark (exec (lap_call c) clock s) =
    Time_Sub (stop (exec (lap_call c) clock s)) (start (exec (lap_call c) clock s)).
Proof.
  intros Hst Hm.
  destruct (lap_call_run c clock s) as (Hd & Hm' & Hs & Hp & _).
  rewrite ElapsedTimeFrom_result, Hst in Hd, Hm'.
  rewrite Hd, Hm', Hs, Hp, Hm, dur_sub_diag. auto.
Qed.

(** The same for any call other than [Start]: it records nothing, or a lap
    of duration zero, and the stopwatch stays stopped with its mark at the
    frozen elapsed time. *)
Lemma stopped_op_zero o clock s :
  o <> OpStart ->
  IsZero (stop s) = false ->
  mark s = Time_Sub (stop s) (start s) ->
  Forall (fun lap => lap_duration lap = 0) (snd (run_op o clock s)) /\
  IsZero (stop (fst (run_op o clock s))) = false /\
  mark (fst (run_op o clock s)) =
    Time_Sub (stop (fst (run_op o clock s))) (start (fst (run_op o clock s))).
Proof.
  intros Hns Hst Hm.
  destruct o as [c| | |f|m| |now| | | |]; try congruence; cbn [run_op fst snd];
    [destruct (stopped_lap_zero c clock s Hst Hm) as (Hd & Hst' & Hm');
     repeat split; auto | ..];
    rewrite ?String_exec, ?MarshalJSON_exec, ?Stop_exec, ?Hst;
    try (split; [constructor | split; assumption]);
    (split; [constructor|]); run_method; rewrite ?Hst; cbn; auto.
Qed.

Lemma stopped_ops_zero ops : forall s,
  Forall (fun co => snd co <> OpStart) ops ->
  IsZero (stop s) = false ->
  mark s = Time_Sub (stop s) (start s) ->
  Forall (fun lap => lap_duration lap = 0) (snd (run_ops ops s)).
Proof.
  induction ops as [|[clock o] rest IH]; intros s Hns Hst Hm.
  - constructor.
  - rewrite run_ops_cons. cbn [snd].
    apply Forall_cons_iff in Hns. destruct Hns as [Ho Hrest]. cbn [snd] in Ho.
    destruct (stopped_op_zero o clock s Ho Hst Hm) as (Hd & Hst' & Hm').
    apply Forall_app. split; auto.
Qed.

(** claim C10: while the stopwatch is stopped with its mark at the frozen
    elapsed time [stop - start], every lap call returns a lap of duration
    zero, whatever its label, data and reference time, as long as [Start]
    (or [Reset]) is not called; and that is the situation any lap call made
    on a stopped stopwatch leaves behind. *)
Theorem C10_laps_while_stopped_have_zero_duration
  (s : Stopwatch) (ops : list (Time * Op)) :
  IsZero (stop s) = false ->
  Forall (fun co => snd co <> OpStart) ops ->
  (mark s = Time_Sub (stop s) (start s) ->
   Forall (fun lap => lap_duration lap = 0) (snd (run_ops ops s))) /\
  (forall clock c,
   Forall (fun lap => lap_duration lap = 0)
     (snd (run_ops ops (exec (lap_call c) clock s)))).
Proof.
  intros Hst Hns. split.
  - intros Hm. now apply stopped_ops_zero.
  - intros clock c.
    destruct (lap_call_run c clock s) as (_ & Hm & Hs & Hp & _).
    rewrite ElapsedTimeFrom_result, Hst in Hm.
    apply stopped_ops_zero; congruence.
Qed.

(** The elapsed time does not decrease when the reference time advances. *)
Lemma ElapsedTimeFrom_mono t t' clock clock' s :
  t <= t' ->
  result (ElapsedTimeFrom t) clock s <= result (ElapsedTimeFrom t') clock' s.
Proof.
  intros H. rewrite !ElapsedTimeFrom_result.
  destruct (IsZero (stop s)); [|lia].
  apply sat64_mono. lia.
Qed.

Lemma mark_history_head calls s :
  exists tl, mark_history calls s = mark s :: tl.
Proof. destruct calls as [|[clock c] rest]; eexists; reflexivity. Qed.

Lemma mark_history_sorted calls : forall s,
  StronglySorted Z.le (map ref_time calls) ->
  (forall cc, In cc calls ->
     mark s <= result (ElapsedTimeFrom (ref_time cc)) (fst cc) s) ->
  StronglySorted Z.le (mark_history calls s).
Proof.
  induction calls as [|[clock c] rest IH]; intros s Hsorted Hle.
  - cbn. repeat constructor.
  - cbn [mark_history].
    destruct (lap_call_run c clock s) as (_ & Hm & Hs & Hp & _).
    cbn [map] in Hsorted. apply StronglySorted_inv in Hsorted.
    destruct Hsorted as [Hrest Hfirst].
    assert (IH' : StronglySorted Z.le (mark_history rest (exec (lap_call c) clock s))).
    { apply IH; auto. intros cc Hin. rewrite Hm.
      rewrite (ElapsedTimeFrom_frame (ref_time cc) (fst cc) s
                 (exec (lap_call c) clock s)) by auto.
      apply ElapsedTimeFrom_mono.
      rewrite Forall_forall in Hfirst. apply Hfirst, in_map, Hin. }
    constructor; auto.
    destruct (mark_history_head rest (exec (lap_call c) clock s)) as [tl Htl].
    rewrite Htl in *. apply StronglySorted_inv in IH'. destruct IH' as [_ Hall].
    assert (H0 : mark s <= mark (exec (lap_call c) clock s)).
    { rewrite Hm. apply (Hle (clock, c)). now left. }
    constructor; auto.
    eapply Forall_impl; [|exact Hall]. cbn. intros; lia.
Qed.

(** After [Reset] (hence after [New]) with an offset that is not negative,
    lap calls whose reference times start at the reset instant and do not
    go backwards never lower the mark. *)
Lemma Reset_then_ordered_laps offset act clock0 s0 calls :
  0 <= offset <= maxDuration ->
  StronglySorted Z.le (clock0 :: map ref_time calls) ->
  StronglySorted Z.le (mark_history calls (exec (Reset offset act) clock0 s0)).
Proof.
  intros Ho Hsorted. apply StronglySorted_inv in Hsorted.
  destruct Hsorted as [Hrest Hfirst].
  apply mark_history_sorted; auto.
  intros cc Hin. rewrite Forall_forall in Hfirst.
  specialize (Hfirst _ (in_map ref_time _ _ Hin)).
  rewrite Reset_exec, ElapsedTimeFrom_result. cbn [mark start stop].
  rewrite dur_neg_exact by (unfold minDuration, maxDuration in *; lia).
  unfold Time_Add, Time_Sub.
  assert (H0 : sat64 0 = 0) by reflexivity.
  destruct act; [change (IsZero zeroTime) with true; cbv iota|
                 destruct (IsZero clock0)];
    rewrite <- H0 at 1; apply sat64_mono; lia.
Qed.

(** claim C4 (amended): over a sequence of lap calls (no [Reset]) whose reference
    times do not go backwards, and whose first call finds an elapsed time
    not below the mark, the mark never decreases: each value it takes is at
    most every later one.  In particular a mark that is positive stays
    positive, so it does not return to zero. *)
Theorem C4_mark_nondecreasing_for_ordered_laps
  (s : Stopwatch) (calls : list (Time * LapCall)) :
  StronglySorted Z.le (map ref_time calls) ->
  (forall cc, hd_error calls = Some cc ->
     mark s <= result (ElapsedTimeFrom (ref_time cc)) (fst cc) s) ->
  StronglySorted Z.le (mark_history calls s) /\
  (0 < mark s -> Forall (fun m => 0 < m) (mark_history calls s)).
Proof.
  intros Hsorted Hfirst.
  assert (Hs : StronglySorted Z.le (mark_history calls s)).
  { apply mark_history_sorted; auto.
    destruct calls as [|cc0 rest]; [intros ? []|].
    intros cc Hin. specialize (Hfirst cc0 eq_refl).
    cbn [map] in Hsorted. apply StronglySorted_inv in Hsorted.
    destruct Hsorted as [_ Hall]. destruct Hin as [<- | Hin]; auto.
    etransitivity; [exact Hfirst|].
    apply ElapsedTimeFrom_mono.
    rewrite Forall_forall in Hall. apply Hall, in_map, Hin. }
  split; auto. intros Hpos.
  destruct (mark_history_head calls s) as [tl Htl]. rewrite Htl in *.
  apply StronglySorted_inv in Hs. destruct Hs as [_ Hall].
  constructor; auto. eapply Forall_impl; [|exact Hall]. cbn. intros; lia.
Qed.

(* ================================================================== *)
(** ** Starting, stopping, constructing                                *)
(* ================================================================== *)

(** claim C3: [Start] on a stopped stopwatch, at a clock reading [t] whose
    distance from [stop] is a [Duration] (as the distance between two
    readings of one process's clock is), moves [start] forward by
    [t - stop] and clears [stop]; right after, the elapsed time is the one
    that was frozen, and [d] later it is the frozen time plus [d]: the pause
    does not count, whatever its length.  For a stopwatch stopped at [t1]
    the frozen time is the elapsed time at [t1]. *)
Theorem C3_Start_excludes_the_pause (s : Stopwatch) (t : Time) :
  IsZero (stop s) = false ->
  is_duration (t - stop s) ->
  let s' := exec Start t s in
  (start s' = start s + (t - stop s) /\ stop s' = zeroTime /\
   mark s' = mark s /\ laps s' = laps s) /\
  result ElapsedTime t s' = result ElapsedTime t s /\
  (forall clock, result ElapsedTime clock s = Time_Sub (stop s) (start s)) /\
  (forall d, result ElapsedTime (t + d) s' = sat64 (stop s - start s + d)) /\
  (forall s0 t1, IsZero (stop s0) = true -> s = exec Stop t1 s0 ->
     result ElapsedTime t s' = result ElapsedTime t1 s0).
Proof.
  intros Hst Hd. cbv zeta. rewrite Start_exec, Hst.
  assert (Hdiff : Time_Sub t (stop s) = t - stop s) by apply (sat64_small _ Hd).
  rewrite Hdiff. unfold Time_Add.
  repeat split.
  - rewrite !ElapsedTime_result, Hst. cbn. unfold Time_Sub. f_equal. lia.
  - intros clock. now rewrite ElapsedTime_result, Hst.
  - intros d. rewrite ElapsedTime_result. cbn. unfold Time_Sub. f_equal. lia.
  - intros s0 t1 Hact Hs. rewrite Stop_exec, Hact in Hs. subst s.
    rewrite !ElapsedTime_result, Hact. cbn. unfold Time_Sub. f_equal. lia.
Qed.

(** claim C5 (amended): for every offset [o] except the least [Duration],
    [New(o, false)] at clock reading [now] sets [start = now - o] and
    [stop = now], and [ElapsedTime] is exactly [o], negative offsets
    included, at whatever clock reading it is called afterwards. *)
Theorem C5_New_stopped_elapsed_is_offset (o : Duration) (now clock : Time) :
  minDuration < o <= maxDuration ->
  IsZero now = false ->
  let s := New_stopwatch o false now in
  start s = now - o /\ stop s = now /\
  result ElapsedTime clock s = o.
Proof.
  intros Ho Hnow. cbv zeta. rewrite New_stopwatch_eq, ElapsedTime_result.
  cbn [start stop]. rewrite Hnow, (dur_neg_exact _ Ho).
  unfold Time_Add, Time_Sub. repeat split; try lia.
  replace (now - (now + - o)) with o by lia.
  apply sat64_small. unfold is_duration. lia.
Qed.

(** claim C6: [Stop] on a stopped stopwatch and [Start] on an active one change
    nothing; two [Stop]s in a row leave the state (hence the frozen elapsed
    time) of the first, and two [Start]s on an active stopwatch leave it as
    it was.  The clock never reads the zero instant, Go's unset sentinel. *)
Theorem C6_Stop_and_Start_are_idempotent (s : Stopwatch) (t1 t2 : Time) :
  IsZero t1 = false ->
  (IsZero (stop s) = false -> exec Stop t1 s = s) /\
  (IsZero (stop s) = true -> exec Start t1 s = s) /\
  exec Stop t2 (exec Stop t1 s) = exec Stop t1 s /\
  (forall clock clock',
     result ElapsedTime clock (exec Stop t2 (exec Stop t1 s)) =
     result ElapsedTime clock' (exec Stop t1 s)) /\
  (IsZero (stop s) = true -> exec Start t2 (exec Start t1 s) = s).
Proof.
  intros Ht1.
  assert (Hstopped : IsZero (stop (exec Stop t1 s)) = false).
  { rewrite Stop_exec. destruct (IsZero (stop s)) eqn:E; cbn; auto. }
  assert (Htwice : exec Stop t2 (exec Stop t1 s) = exec Stop t1 s).
  { rewrite (Stop_exec t2), Hstopped. reflexivity. }
  repeat split.
  - intros H. now rewrite Stop_exec, H.
  - intros H. now rewrite Start_exec, H.
  - exact Htwice.
  - intros clock clock'. rewrite Htwice, !ElapsedTime_result, Hstopped. reflexivity.
  - intros H. rewrite (Start_exec t1), H, Start_exec, H. reflexivity.
Qed.

(* ================================================================== *)
(** ** Rendering                                                       *)
(* ================================================================== *)

Lemma String_array_like mode clock s :
  String.eqb (defaultedFormattingMode mode) FormattingModeJsonSimpleObject = false ->
  String.eqb (defaultedFormattingMode mode) FormattingModeJsonMsObject = false ->
  result String_ clock (exec (SetFormattingMode mode) clock s) = render_array (laps s).
Proof.
  intros H1 H2. unfold result, exec, String_, SetFormattingMode, bind; cbn.
  rewrite H1, H2. reflexivity.
Qed.

(** claim C7: with a formatting mode that is none of the three tags, the empty
    string included, [String] returns exactly what it returns in mode
    [JSON_ARRAY], on every stopwatch. *)
Theorem C7_unknown_mode_renders_as_array
  (s : Stopwatch) (mode : FormattingMode) (clock : Time) :
  mode <> FormattingModeJsonArray ->
  mode <> FormattingModeJsonSimpleObject ->
  mode <> FormattingModeJsonMsObject ->
  result String_ clock (exec (SetFormattingMode mode) clock s) =
  result String_ clock (exec (SetFormattingMode FormattingModeJsonArray) clock s).
Proof.
  intros _ Hobj Hms.
  rewrite (String_array_like FormattingModeJsonArray) by reflexivity.
  apply String_array_like; unfold defaultedFormattingMode;
    destruct (String.eqb_spec mode EmptyString); try reflexivity;
    now apply String.eqb_neq.
Qed.

(* ================================================================== *)
(** ** Locking                                                         *)
(* ================================================================== *)

Lemma String_events clock s :
  events String_ clock s =
  [EvRLock; EvRead FformattingMode; EvRead Flaps; EvRUnlock].
Proof.
  unfold events, String_, formatAsObject, bind; cbn.
  destruct (String.eqb (defaultedFormattingMode (formattingMode s))
              FormattingModeJsonSimpleObject); [reflexivity|].
  destruct (String.eqb (defaultedFormattingMode (formattingMode s))
              FormattingModeJsonMsObject); reflexivity.
Qed.

(** claim C9 (amended): [LapTime], [Laps], [String] and [MarshalJSON] take the read
    lock before their first field access, only read, and release it after
    the last access; [Reset], [Start], [Stop], the three lap methods,
    [SetFormatter] and [SetFormattingMode] do the same with the write lock;
    [ElapsedTime] and [ElapsedTimeFrom] read [stop] and [start] without any
    lock operation of their own. *)
Theorem C9_lock_discipline
  (s : Stopwatch) (clock now : Time) (offset : Duration) (act : bool)
  (state : string) (data : MapData) (f : Formatter) (mode : FormattingMode) :
  (holds_shared (events LapTime clock s) = true /\
   holds_shared (events Laps clock s) = true /\
   holds_shared (events String_ clock s) = true /\
   holds_shared (events MarshalJSON clock s) = true) /\
  (holds_exclusive (events (Reset offset act) clock s) = true /\
   holds_exclusive (events Start clock s) = true /\
   holds_exclusive (events Stop clock s) = true /\
   holds_exclusive (events (Lap_ state) clock s) = true /\
   holds_exclusive (events (LapWithData state data) clock s) = true /\
   holds_exclusive (events (LapWithDataAndTime now state data) clock s) = true /\
   holds_exclusive (events (SetFormatter f) clock s) = true /\
   holds_exclusive (events (SetFormattingMode mode) clock s) = true) /\
  (lock_free (events ElapsedTime clock s) = true /\
   lock_free (events (ElapsedTimeFrom now) clock s) = true /\
   holds_shared (events ElapsedTime clock s) = false /\
   holds_shared (events (ElapsedTimeFrom now) clock s) = false).
Proof.
  assert (HS := String_events clock s).
  assert (HM : events MarshalJSON clock s = events String_ clock s).
  { unfold events, MarshalJSON, bind. destruct (String_ clock s) as [[r s1] t1].
    cbn. apply app_nil_r. }
  rewrite HM, HS.
  unfold events, LapTime, Laps, Reset, Start, Stop, Lap_, LapWithData,
    LapWithDataAndTime, SetFormatter, SetFormattingMode, ElapsedTime,
    ElapsedTimeFrom, active, bind; cbn.
  destruct act, (IsZero (stop s)); cbn; repeat split.
Qed.

(* ================================================================== *)
(** ** binary64: converting, dividing by 1000.0, printing              *)
(* ================================================================== *)

Lemma digits2_pos_bounds p :
  2 ^ Z.pos (digits2_pos p) <= 2 * Z.pos p /\ Z.pos p < 2 ^ Z.pos (digits2_pos p).
Proof.
  induction p as [p IH | p IH |]; cbn [digits2_pos].
  - rewrite Pos2Z.inj_succ, Z.pow_succ_r, Pos2Z.inj_xI by lia. lia.
  - rewrite Pos2Z.inj_succ, Z.pow_succ_r by lia.
    change (Z.pos p~0) with (2 * Z.pos p). lia.
  - change (2 ^ 1) with 2. lia.
Qed.

Lemma digits2_pos_unique p k :
  2 ^ k <= 2 * Z.pos p -> Z.pos p < 2 ^ k -> Z.pos (digits2_pos p) = k.
Proof.
  intros Hlo Hhi. pose proof (digits2_pos_bounds p) as [Dlo Dhi].
  set (d := Z.pos (digits2_pos p)) in *.
  assert (Hd : 0 < d) by (subst d; lia).
  assert (Hk : 0 < k).
  { destruct (Z.ltb_spec 0 k); auto.
    assert (2 ^ k <= 1).
    { destruct (Z.eq_dec k 0) as [->|]; [cbn; lia|]. rewrite Z.pow_neg_r; lia. }
    lia. }
  destruct (Z.lt_trichotomy d k) as [H1 | [H1 | H1]]; auto.
  - assert (2 ^ (d + 1) <= 2 ^ k) by (apply Z.pow_le_mono_r; lia).
    rewrite Z.pow_add_r in * by lia. lia.
  - assert (2 ^ (k + 1) <= 2 ^ d) by (apply Z.pow_le_mono_r; lia).
    rewrite Z.pow_add_r in * by lia. lia.
Qed.

Lemma iter_xO_pow p d : Z.pos (Pos.iter xO p d) = Z.pos p * 2 ^ Z.pos d.
Proof.
  induction d as [|d IH] using Pos.peano_ind.
  - cbn. lia.
  - rewrite Pos.iter_succ, Pos2Z.inj_succ, Z.pow_succ_r by lia.
    change (Z.pos (Pos.iter xO p d)~0) with (2 * Z.pos (Pos.iter xO p d)).
    rewrite IH. lia.
Qed.

Lemma loc_of_shr_record_of_loc m l :
  loc_of_shr_record (shr_record_of_loc m l) = l.
Proof. destruct l as [|[]]; reflexivity. Qed.

Lemma shr_m_of_loc m l : shr_m (shr_record_of_loc m l) = m.
Proof. destruct l as [|[]]; reflexivity. Qed.

Lemma round_nearest_even_cases m l :
  round_nearest_even m l = m \/ round_nearest_even m l = m + 1.
Proof. destruct l as [|[]]; cbn; auto. destruct (Z.even m); auto. Qed.

Lemma fexp64 x : emin64 + 53 <= x -> fexp f64_prec f64_emax x = x - 53.
Proof. unfold fexp, SpecFloat.emin, f64_prec, f64_emax, emin64. lia. Qed.

(** The second half of [binary_round_aux]: a rounded mantissa of 53 bits is
    kept, the one that rounding carried to [2^53] loses its last bit. *)
Lemma binary_round_aux_renormalize s m1 e :
  2 ^ 52 <= m1 <= 2 ^ 53 -> emin64 <= e <= 969 ->
  (let '(mrs, e') := shr_fexp f64_prec f64_emax m1 e loc_Exact in
   match shr_m mrs with
   | 0 => S754_zero s
   | Z.pos m => if e' <=? f64_emax - f64_prec then S754_finite s m e' else S754_infinity s
   | Z.neg _ => S754_nan
   end) =
  if m1 =? 2 ^ 53 then S754_finite s (2 ^ 52)%positive (e + 1)
  else S754_finite s (Z.to_pos m1) e.
Proof.
  intros Hm He. unfold shr_fexp.
  destruct (Z.eqb_spec m1 (2 ^ 53)) as [-> | Hne].
  - change (Zdigits2 (2 ^ 53)) with 54. rewrite fexp64 by (unfold emin64 in *; lia).
    replace (54 + e - 53 - e) with 1 by lia. cbn [shr_record_of_loc shr iter_pos].
    cbn [shr_1 Z.pow Z.pow_pos Pos.iter Z.mul Pos.mul shr_m].
    assert ((e + 1 <=? f64_emax - f64_prec) = true) as -> by (unfold f64_emax, f64_prec; lia).
    reflexivity.
  - destruct m1 as [|m|m]; try lia.
    assert (Hd : Z.pos (digits2_pos m) = 53) by (apply digits2_pos_unique; lia).
    cbn [Zdigits2]. rewrite Hd, fexp64 by (unfold emin64 in *; lia).
    replace (53 + e - 53 - e) with 0 by lia. cbn [shr shr_m shr_record_of_loc].
    assert ((e <=? f64_emax - f64_prec) = true) as -> by (unfold f64_emax, f64_prec; lia).
    reflexivity.
Qed.

(** Rounding a 53-bit mantissa: no bit is dropped. *)
Lemma binary_round_aux_53 s m e l :
  Z.pos (digits2_pos m) = 53 -> emin64 <= e <= 969 ->
  binary_round_aux f64_prec f64_emax s (Z.pos m) e l =
  let m1 := round_nearest_even (Z.pos m) l in
  if m1 =? 2 ^ 53 then S754_finite s (2 ^ 52)%positive (e + 1)
  else S754_finite s (Z.to_pos m1) e.
Proof.
  intros Hd He. unfold binary_round_aux. unfold shr_fexp at 1.
  cbn [Zdigits2]. rewrite Hd, fexp64 by (unfold emin64 in *; lia).
  replace (53 + e - 53 - e) with 0 by lia. cbn [shr].
  rewrite shr_m_of_loc, loc_of_shr_record_of_loc.
  pose proof (digits2_pos_bounds m) as [Dlo Dhi]. rewrite Hd in Dlo, Dhi.
  change (2 ^ 53) with (2 * 2 ^ 52) in Dlo.
  apply binary_round_aux_renormalize; auto.
  destruct (round_nearest_even_cases (Z.pos m) l) as [-> | ->]; lia.
Qed.

Lemma shr_1_loc m l :
  shr_m (shr_1 (shr_record_of_loc (Z.pos m) l)) = Z.pos m / 2 /\
  loc_of_shr_record (shr_1 (shr_record_of_loc (Z.pos m) l)) =
    loc_shift1 (Z.odd (Z.pos m)) l.
Proof.
  destruct m as [m | m |].
  - rewrite Pos2Z.inj_xI. replace ((2 * Z.pos m + 1) / 2) with (Z.pos m)
      by (apply Z.div_unique with 1; lia).
    destruct l as [|[]]; split; reflexivity.
  - change (Z.pos m~0) with (2 * Z.pos m) at 2. 
    replace ((2 * Z.pos m) / 2) with (Z.pos m)
      by (apply Z.div_unique with 0; lia).
    destruct l as [|[]]; split; reflexivity.
  - destruct l as [|[]]; split; reflexivity.
Qed.

(** Rounding a 54-bit mantissa: one bit is dropped. *)
Lemma binary_round_aux_54 s m e l :
  Z.pos (digits2_pos m) = 54 -> emin64 <= e <= 968 ->
  binary_round_aux f64_prec f64_emax s (Z.pos m) e l =
  let m1 := round_nearest_even (Z.pos m / 2) (loc_shift1 (Z.odd (Z.pos m)) l) in
  if m1 =? 2 ^ 53 then S754_finite s (2 ^ 52)%positive (e + 2)
  else S754_finite s (Z.to_pos m1) (e + 1).
Proof.
  intros Hd He. unfold binary_round_aux. unfold shr_fexp at 1.
  cbn [Zdigits2]. rewrite Hd, fexp64 by (unfold emin64 in *; lia).
  replace (54 + e - 53 - e) with 1 by lia. cbn [shr iter_pos].
  destruct (shr_1_loc m l) as [-> ->].
  pose proof (digits2_pos_bounds m) as [Dlo Dhi]. rewrite Hd in Dlo, Dhi.
  change (2 ^ 54) with (2 * 2 ^ 53) in *.
  assert (2 ^ 52 <= Z.pos m / 2 < 2 ^ 53).
  { split; [apply Z.div_le_lower_bound | apply Z.div_lt_upper_bound]; lia. }
  replace (e + 2) with (e + 1 + 1) by lia.
  apply binary_round_aux_renormalize; [|lia].
  destruct (round_nearest_even_cases (Z.pos m / 2) (loc_shift1 (Z.odd (Z.pos m)) l)) as [-> | ->]; lia.
Qed.


Lemma new_location_even_D D r :
  Z.even D = true ->
  new_location D r =
  if r =? 0 then loc_Exact else loc_Inexact (2 * r ?= D).
Proof. intros H. unfold new_location. now rewrite H. Qed.

Lemma rne_div_close N D :
  0 < D -> Z.even D = true ->
  2 * Z.abs (round_nearest_even (N / D) (new_location D (N mod D)) * D - N) <= D.
Proof.
  intros HD He. rewrite new_location_even_D by auto.
  pose proof (Z.div_mod N D ltac:(lia)) as Hdm.
  pose proof (Z.mod_pos_bound N D HD) as Hr.
  set (q := N / D) in *. set (r := N mod D) in *.
  destruct (Z.eqb_spec r 0) as [Hz | Hnz]; cbn [round_nearest_even]; [lia|].
  destruct (Z.compare_spec (2 * r) D); [destruct (Z.even q)| |]; lia.
Qed.

Lemma rne_shift_close N D :
  0 < D -> Z.even D = true ->
  Z.abs (round_nearest_even (N / D / 2)
           (loc_shift1 (Z.odd (N / D)) (new_location D (N mod D))) * (2 * D) - N) <= D.
Proof.
  intros HD He. rewrite new_location_even_D by auto.
  pose proof (Z.div_mod N D ltac:(lia)) as Hdm.
  pose proof (Z.mod_pos_bound N D HD) as Hr.
  set (q := N / D) in *. set (r := N mod D) in *.
  pose proof (Z.div_mod q 2 ltac:(lia)) as Hq2.
  pose proof (Zmod_odd q) as Hodd.
  set (h := q / 2) in *.
  destruct (Z.odd q); rewrite Hodd in Hq2;
    (destruct (Z.eqb_spec r 0) as [Hz | Hnz];
     [| destruct (2 * r ?= D)]); cbn [loc_shift1 round_nearest_even];
    try destruct (Z.even h); lia.
Qed.

(** [float64(n)] for [n] of at most 54 bits: a 53-bit mantissa, which is
    [n] shifted up when [n] has at most 53 bits, so that the conversion is
    exact then. *)
Lemma binary_round_int s p k :
  Z.pos (digits2_pos p) = k -> k <= 54 -> Z.pos p < 2 ^ 54 - 2 ->
  exists m,
    binary_round f64_prec f64_emax s p 0 = S754_finite s m (k - 53) /\
    Z.pos (digits2_pos m) = 53 /\
    (k <= 53 -> Z.pos m = Z.pos p * 2 ^ (53 - k)).
Proof.
  intros Hk Hle Hp. unfold binary_round.
  assert (Hk1 : 1 <= k) by lia.
  rewrite Hk, Z.add_0_r, fexp64 by (unfold emin64; lia).
  pose proof (digits2_pos_bounds p) as [Dlo Dhi]. rewrite Hk in Dlo, Dhi.
  unfold shl_align. rewrite Z.sub_0_r.
  destruct (k - 53) as [|d|d] eqn:Ed; try lia.
  - assert (E53 : k = 53) by lia. rewrite E53 in *. exists p.
    rewrite binary_round_aux_53 by (unfold emin64; lia). cbn [round_nearest_even].
    assert ((Z.pos p =? 2 ^ 53) = false) as -> by (apply Z.eqb_neq; lia).
    cbv zeta iota. repeat split; auto. change (2 ^ (53 - 53)) with 1. lia.
  - assert (E54 : k = 54) by lia. rewrite E54 in *.
    rewrite binary_round_aux_54 by (unfold emin64; lia). cbv zeta.
    set (m1 := round_nearest_even (Z.pos p / 2) (loc_shift1 (Z.odd (Z.pos p)) loc_Exact)).
    assert (Hh : 2 ^ 52 <= Z.pos p / 2 < 2 ^ 53 - 1).
    { split; [apply Z.div_le_lower_bound | apply Z.div_lt_upper_bound]; lia. }
    assert (Hm1 : Z.pos p / 2 <= m1 <= Z.pos p / 2 + 1).
    { destruct (round_nearest_even_cases (Z.pos p / 2)
                  (loc_shift1 (Z.odd (Z.pos p)) loc_Exact)) as [E | E];
        fold m1 in E; lia. }
    assert ((m1 =? 2 ^ 53) = false) as -> by (apply Z.eqb_neq; lia).
    exists (Z.to_pos m1). assert (Z.pos d = 1) as -> by lia.
    repeat split; [|lia].
    apply digits2_pos_unique; rewrite Z2Pos.id by lia; lia.
  - assert (Hm : Z.pos (Pos.iter xO p d) = Z.pos p * 2 ^ (53 - k)).
    { rewrite iter_xO_pow. f_equal. f_equal. lia. }
    assert (Hpw : 2 ^ 53 = 2 ^ k * 2 ^ (53 - k)).
    { rewrite <- Z.pow_add_r by lia. f_equal. lia. }
    assert (Hpos : 0 < 2 ^ (53 - k)) by (apply Z.pow_pos_nonneg; lia).
    assert (Hd : Z.pos (digits2_pos (Pos.iter xO p d)) = 53).
    { apply digits2_pos_unique; rewrite Hm, Hpw; nia. }
    exists (Pos.iter xO p d).
    rewrite binary_round_aux_53 by (unfold emin64; lia || auto). cbn [round_nearest_even].
    assert ((Z.pos (Pos.iter xO p d) =? 2 ^ 53) = false) as ->.
    { apply Z.eqb_neq. rewrite Hm, Hpw. nia. }
    cbv zeta iota. repeat split; auto.
Qed.

Lemma f64_1000_eq : f64_1000 = S754_finite false m1000 (-43).
Proof. reflexivity. Qed.

Lemma div1000_core mx k :
  Z.pos (digits2_pos mx) = 53 -> 1 <= k <= 54 ->
  SFdiv_core_binary f64_prec f64_emax (Z.pos mx) (k - 53) (Z.pos m1000) (-43) =
  ((Z.pos mx * 2 ^ 53) / Z.pos m1000, k - 63,
   new_location (Z.pos m1000) ((Z.pos mx * 2 ^ 53) mod Z.pos m1000)).
Proof.
  intros Hd Hk. unfold SFdiv_core_binary. cbn [Zdigits2]. rewrite Hd.
  change (Z.pos (digits2_pos m1000)) with 53.
  rewrite fexp64 by (unfold emin64; lia).
  replace (Z.min (53 + (k - 53) - (53 + -43) - 53) (k - 53 - -43)) with (k - 63) by lia.
  replace (k - 53 - -43 - (k - 63)) with 53 by lia.
  rewrite Z.shiftl_mul_pow2 by lia.
  unfold Z.div, Z.modulo.
  destruct (Z.div_eucl (Z.pos mx * 2 ^ 53) (Z.pos m1000)); reflexivity.
Qed.

(** The quotient [float64(n) / 1000.0] for [n] up to the microseconds of
    the longest [Duration]: it is a finite number, and below [2^43]
    milliseconds it is within half a thousandth of [n / 1000]. *)
Lemma ms_quotient s p :
  Z.pos p <= 9223372036854775 ->
  exists m_r e_r,
    float64_div (binary_round f64_prec f64_emax s p 0) f64_1000 =
      S754_finite s m_r e_r /\
    (Z.pos p < 1000 * 2 ^ 43 ->
     e_r < 0 /\
     2 * Z.abs (Z.pos m_r * 1000 - Z.pos p * 2 ^ (- e_r)) < 2 ^ (- e_r)).
Proof.
  intros Hmax.
  pose proof (digits2_pos_bounds p) as [Dlo Dhi].
  set (k := Z.pos (digits2_pos p)) in *.
  assert (Hk1 : 1 <= k) by (subst k; lia).
  assert (Hk : k <= 54).
  { destruct (Z_le_gt_dec k 54); auto.
    assert (2 ^ 55 <= 2 ^ k) by (apply Z.pow_le_mono_r; lia). lia. }
  destruct (binary_round_int s p k eq_refl Hk ltac:(lia)) as (mx & -> & Hdx & Hmx).
  unfold float64_div, SFdiv. rewrite f64_1000_eq, div1000_core by auto.
  rewrite xorb_false_r.
  pose proof (digits2_pos_bounds mx) as [Xlo Xhi]. rewrite Hdx in Xlo, Xhi.
  set (N := Z.pos mx * 2 ^ 53) in *.
  (* below 2^43 milliseconds: the scale 2^(63-k), halved *)
  assert (Hscale : Z.pos p < 1000 * 2 ^ 43 ->
            k <= 53 /\ 2 ^ 9 <= 2 ^ (62 - k) /\
            2 ^ (63 - k) = 2 * 2 ^ (62 - k) /\
            N = Z.pos p * 2 ^ (62 - k) * (2 * 2 ^ 43)).
  { intros Hp.
    assert (Hk53 : k <= 53).
    { destruct (Z_le_gt_dec k 53); auto.
      assert (2 ^ 54 <= 2 ^ k) by (apply Z.pow_le_mono_r; lia). lia. }
    assert (HT : 2 ^ (53 - k) * 2 ^ 53 = 2 ^ (63 - k) * 2 ^ 43).
    { rewrite <- !Z.pow_add_r by lia. f_equal. lia. }
    assert (HT1 : 2 ^ (63 - k) = 2 * 2 ^ (62 - k)).
    { rewrite <- Z.pow_succ_r by lia. f_equal. lia. }
    repeat split; auto.
    - apply Z.pow_le_mono_r; lia.
    - subst N. rewrite (Hmx Hk53), <- Z.mul_assoc, HT, HT1. ring. }
  set (T' := 2 ^ (62 - k)) in *.
  assert (HD : Z.pos m1000 = 1000 * 2 ^ 43) by reflexivity.
  pose proof (Z.div_mod N (Z.pos m1000) ltac:(lia)) as Hdm.
  pose proof (Z.mod_pos_bound N (Z.pos m1000) ltac:(lia)) as Hr.
  pose proof (rne_div_close N (Z.pos m1000) ltac:(lia) eq_refl) as Hclose.
  pose proof (rne_shift_close N (Z.pos m1000) ltac:(lia) eq_refl) as Hshift.
  set (l := new_location (Z.pos m1000) (N mod Z.pos m1000)) in *.
  assert (Hq : 2 ^ 52 <= N / Z.pos m1000 < 2 ^ 54).
  { split; [apply Z.div_le_lower_bound | apply Z.div_lt_upper_bound]; lia. }
  destruct (N / Z.pos m1000) as [|q|q] eqn:Eq; try lia.
  destruct (Z_lt_le_dec (Z.pos q) (2 ^ 53)) as [Hq53 | Hq54].
  - (* the quotient has 53 bits *)
    rewrite binary_round_aux_53 by (unfold emin64; first [apply digits2_pos_unique; lia | lia]).
    cbv zeta.
    set (m1 := round_nearest_even (Z.pos q) l) in *.
    assert (Hm1 : Z.pos q <= m1 <= Z.pos q + 1).
    { destruct (round_nearest_even_cases (Z.pos q) l) as [E | E]; fold m1 in E; lia. }
    destruct (Z.eqb_spec m1 (2 ^ 53)) as [E | E].
    + exists (2 ^ 52)%positive, (k - 63 + 1). split; [reflexivity|].
      intros Hp. destruct (Hscale Hp) as (Hk53 & HT2 & HT1 & HN).
      split; [lia|]. replace (- (k - 63 + 1)) with (62 - k) by lia. fold T'.
      rewrite E in Hclose. change (Z.pos (2 ^ 52)) with (2 ^ 52). lia.
    + exists (Z.to_pos m1), (k - 63). split; [reflexivity|].
      intros Hp. destruct (Hscale Hp) as (Hk53 & HT2 & HT1 & HN).
      split; [lia|]. replace (- (k - 63)) with (63 - k) by lia.
      rewrite HT1. rewrite Z2Pos.id by lia. lia.
  - (* the quotient has 54 bits, so its last bit is dropped *)
    rewrite binary_round_aux_54 by (unfold emin64; first [apply digits2_pos_unique; lia | lia]).
    cbv zeta.
    set (m1 := round_nearest_even (Z.pos q / 2) (loc_shift1 (Z.odd (Z.pos q)) l)) in *.
    assert (Hh : 2 ^ 52 <= Z.pos q / 2 < 2 ^ 53 - 1).
    { split; [apply Z.div_le_lower_bound | apply Z.div_lt_upper_bound]; lia. }
    assert (Hm1 : Z.pos q / 2 <= m1 <= Z.pos q / 2 + 1).
    { destruct (round_nearest_even_cases (Z.pos q / 2) (loc_shift1 (Z.odd (Z.pos q)) l))
        as [E | E]; fold m1 in E; lia. }
    assert ((m1 =? 2 ^ 53) = false) as -> by (apply Z.eqb_neq; lia).
    exists (Z.to_pos m1), (k - 63 + 1). split; [reflexivity|].
    intros Hp. destruct (Hscale Hp) as (Hk53 & HT2 & HT1 & HN).
    assert (Hk52 : k <= 52).
    { destruct (Z.eq_dec k 53) as [E53 | ]; [|lia]. exfalso.
      subst T'. rewrite E53 in *. change (2 ^ (62 - 53)) with 512 in *. lia. }
    assert (HT3 : 2 ^ 10 <= T') by (apply Z.pow_le_mono_r; lia).
    split; [lia|]. replace (- (k - 63 + 1)) with (62 - k) by lia. fold T'.
    rewrite Z2Pos.id by lia. lia.
Qed.


Lemma Microseconds_bound d :
  is_duration d -> Z.abs (Microseconds d) <= 9223372036854775.
Proof.
  unfold is_duration, minDuration, maxDuration, Microseconds.
  change (2 ^ 63) with 9223372036854775808. intros H.
  destruct (Z_le_gt_dec 0 d).
  - rewrite Z.quot_div_nonneg by lia.
    assert (d / 1000 < 9223372036854776) by (apply Z.div_lt_upper_bound; lia).
    assert (0 <= d / 1000) by (apply Z.div_pos; lia). lia.
  - replace d with (- (- d)) by lia. rewrite Z.quot_opp_l by lia.
    rewrite Z.quot_div_nonneg by lia.
    assert (- d / 1000 < 9223372036854776) by (apply Z.div_lt_upper_bound; lia).
    assert (0 <= - d / 1000) by (apply Z.div_pos; lia). lia.
Qed.

Lemma digit_char_spec d :
  0 <= d <= 9 ->
  is_digit (digit_char d) = true /\
  Z.of_nat (nat_of_ascii (digit_char d)) - 48 = d.
Proof.
  intros H.
  assert (E : d = 0 \/ d = 1 \/ d = 2 \/ d = 3 \/ d = 4 \/
              d = 5 \/ d = 6 \/ d = 7 \/ d = 8 \/ d = 9) by lia.
  repeat (destruct E as [-> | E]; [split; reflexivity|]). subst d. split; reflexivity.
Qed.

Lemma dec_digits_shape fuel : forall n acc,
  0 <= n -> all_digits acc = true ->
  all_digits (dec_digits fuel n acc) = true /\
  (acc <> EmptyString \/ fuel <> O -> dec_digits fuel n acc <> EmptyString).
Proof.
  induction fuel as [|fuel IH]; intros n acc Hn Hacc; cbn [dec_digits].
  - split; auto. intros [H | H]; congruence.
  - destruct (digit_char_spec (n mod 10)) as [Hd _].
    { pose proof (Z.mod_pos_bound n 10); lia. }
    destruct (n / 10 =? 0).
    + split; [cbn [all_digits]; now rewrite Hd, Hacc | discriminate].
    + destruct (IH (n / 10) (String (digit_char (n mod 10)) acc)) as [H1 H2].
      * apply Z.div_pos; lia.
      * cbn [all_digits]. now rewrite Hd, Hacc.
      * split; auto. intros _. apply H2. left. discriminate.
Qed.

Lemma dec_digits_read fuel : forall n acc,
  0 <= n < 2 ^ Z.of_nat fuel ->
  read_digits 0 (dec_digits fuel n acc) = read_digits n acc.
Proof.
  induction fuel as [|fuel IH]; intros n acc Hn; cbn [dec_digits].
  - change (2 ^ Z.of_nat 0) with 1 in Hn. now replace n with 0 by lia.
  - rewrite Nat2Z.inj_succ, Z.pow_succ_r in Hn by lia.
    destruct (digit_char_spec (n mod 10)) as [Hd Hv].
    { pose proof (Z.mod_pos_bound n 10); lia. }
    pose proof (Z.div_mod n 10 ltac:(lia)) as Hdm.
    destruct (Z.eqb_spec (n / 10) 0) as [E | E].
    + cbn [read_digits]. rewrite Hd, Hv. f_equal. lia.
    + rewrite IH.
      * cbn [read_digits]. rewrite Hd, Hv. f_equal. lia.
      * split; [apply Z.div_pos; lia | apply Z.div_lt_upper_bound; lia].
Qed.

Lemma dec_of_Z_spec n :
  0 <= n ->
  all_digits (dec_of_Z n) = true /\ dec_of_Z n <> EmptyString /\
  read_digits 0 (dec_of_Z n) = n.
Proof.
  intros Hn. unfold dec_of_Z.
  destruct (dec_digits_shape (S (Z.to_nat (Z.log2 n))) n EmptyString Hn eq_refl)
    as [H1 H2].
  repeat split; auto.
  rewrite dec_digits_read; [reflexivity|].
  rewrite Nat2Z.inj_succ, Z2Nat.id by apply Z.log2_nonneg.
  destruct (Z.eq_dec n 0) as [-> | Hnz]; [cbn; lia|].
  pose proof (Z.log2_spec n ltac:(lia)). lia.
Qed.

Lemma frac3_spec r :
  0 <= r < 1000 ->
  String.length (frac3 r) = 3%nat /\ all_digits (frac3 r) = true /\
  forall v, read_digits v (frac3 r) = 1000 * v + r.
Proof.
  intros Hr. unfold frac3.
  destruct (digit_char_spec (r / 100)) as [H1 V1].
  { split; [apply Z.div_pos | apply Z.lt_succ_r, Z.div_lt_upper_bound]; lia. }
  destruct (digit_char_spec (r / 10 mod 10)) as [H2 V2].
  { pose proof (Z.mod_pos_bound (r / 10) 10); lia. }
  destruct (digit_char_spec (r mod 10)) as [H3 V3].
  { pose proof (Z.mod_pos_bound r 10); lia. }
  split; [reflexivity|]. split; [cbn [all_digits]; now rewrite H1, H2, H3|].
  intros v. cbn [read_digits]. rewrite H1, H2, H3, V1, V2, V3.
  pose proof (Z.div_mod r 10 ltac:(lia)).
  pose proof (Z.div_mod (r / 10) 10 ltac:(lia)).
  assert (r / 100 = r / 10 / 10) by (rewrite Z.div_div by lia; reflexivity).
  lia.
Qed.

Lemma read_digits_app a b : forall v,
  read_digits v (a ++ b) = read_digits (read_digits v a) b.
Proof.
  induction a as [|c a IH]; intros v; cbn [append read_digits]; [reflexivity|].
  destruct (is_digit c); apply IH.
Qed.

(** The text for [thousandths]: a numeral with three decimals that reads
    back as [thousandths]. *)
Lemma fixed3_spec s thousandths :
  0 <= thousandths ->
  three_decimals (fixed3 s thousandths) /\
  read_digits 0 (fixed3 s thousandths) = thousandths.
Proof.
  intros H. unfold fixed3.
  destruct (dec_of_Z_spec (thousandths / 1000)) as (D1 & D2 & D3).
  { apply Z.div_pos; lia. }
  destruct (frac3_spec (thousandths mod 1000)) as (F1 & F2 & F3).
  { apply Z.mod_pos_bound; lia. }
  split.
  - exists (sign_string s), (dec_of_Z (thousandths / 1000)), (frac3 (thousandths mod 1000)).
    repeat split; auto. destruct s; cbn; auto.
  - rewrite !read_digits_app.
    assert (read_digits 0 (sign_string s) = 0) as -> by now destruct s.
    rewrite D3. cbn [read_digits append]. change (is_digit ".") with false.
    cbv iota. rewrite F3.
    pose proof (Z.div_mod thousandths 1000 ltac:(lia)). lia.
Qed.

Lemma round_thousandths_nonneg m e : 0 <= round_thousandths m e.
Proof.
  unfold round_thousandths. destruct e as [|e|e].
  - lia.
  - assert (0 < 2 ^ Z.pos e) by (apply Z.pow_pos_nonneg; lia). nia.
  - assert (0 < 2 ^ Z.pos e) by (apply Z.pow_pos_nonneg; lia).
    assert (0 <= Z.pos m * 1000 / 2 ^ Z.pos e) by (apply Z.div_pos; lia).
    destruct (_ ?= _); [destruct (Z.even _)| |]; lia.
Qed.

(** The quotient is a finite number for every [Duration], so its text has
    three decimals. *)
Lemma msValue_three_decimals d :
  is_duration d -> three_decimals (Sprintf_3f (msValue d)).
Proof.
  intros Hd. pose proof (Microseconds_bound d Hd) as Hb.
  unfold msValue, float64_of_int, binary_normalize.
  destruct (Microseconds d) as [|p|p].
  - apply (fixed3_spec false 0). lia.
  - destruct (ms_quotient false p ltac:(lia)) as (m & e & -> & _).
    apply fixed3_spec, round_thousandths_nonneg.
  - destruct (ms_quotient true p ltac:(lia)) as (m & e & -> & _).
    apply fixed3_spec, round_thousandths_nonneg.
Qed.


(** The bound is sharp: one microsecond past [2^43] milliseconds the
    nearest [float64] is already closer to the next thousandth. *)
Example msValue_rounds_past_2_43 :
  Sprintf_3f (msValue (8796093022208001 * 1000)) = "8796093022208.002"%string /\
  exact_ms_text 8796093022208001 = "8796093022208.001"%string.
Proof. split; vm_compute; reflexivity. Qed.

Lemma exact_ms_text_reads us : read_digits 0 (exact_ms_text us) = Z.abs us.
Proof. apply fixed3_spec. lia. Qed.

Lemma collect_total (f : Lap -> string) (ls : list Lap) :
  collect (fun lap => Some (f lap)) ls = Some (map f ls).
Proof. induction ls as [|l ls IH]; cbn; [reflexivity | now rewrite IH]. Qed.




(* ================================================================== *)
(** ** Further properties: time                                        *)
(* ================================================================== *)

Lemma sat64_le_self x : minDuration <= x -> sat64 x <= x.
Proof.
  unfold sat64, minDuration, maxDuration. intros H.
  destruct (Z.ltb_spec x (- 2 ^ 63)); [lia|].
  destruct (Z.ltb_spec (2 ^ 63 - 1) x); lia.
Qed.

Lemma sat64_neg_iff x : sat64 x < 0 <-> x < 0.
Proof.
  unfold sat64, minDuration, maxDuration.
  destruct (Z.ltb_spec x (- 2 ^ 63)); [lia|].
  destruct (Z.ltb_spec (2 ^ 63 - 1) x); lia.
Qed.

Lemma LapTime_result clock s :
  result LapTime clock s = dur_sub (result ElapsedTime clock s) (mark s).
Proof. run_method. by_stop_case s. Qed.

Lemma LapTime_exec clock s : exec LapTime clock s = s.
Proof. run_method. by_stop_case s. Qed.

(** [Reset(o, true)], and so [New(o, true)], starts the count at [o]: at
    clock reading [clock] the elapsed time is [o] plus the time since the
    call (saturated), whatever the stopwatch held before.  With a negative
    offset it is negative exactly until the clock reaches [now - o]. *)
Theorem Reset_active_counts_from_offset
  (o : Duration) (now clock : Time) (s0 : Stopwatch) :
  minDuration < o <= maxDuration ->
  let s := exec (Reset o true) now s0 in
  (result ElapsedTime clock s = sat64 (clock - now + o) /\
   result ElapsedTime clock (New_stopwatch o true now) = sat64 (clock - now + o)) /\
  (is_duration (clock - now + o) ->
   result ElapsedTime clock s = o + (clock - now)) /\
  (result ElapsedTime clock s < 0 <-> clock < now - o).
Proof.
  intros Ho. cbv zeta.
  rewrite New_stopwatch_eq, Reset_exec, !ElapsedTime_result. cbn [start stop].
  change (IsZero zeroTime) with true. cbv iota.
  rewrite (dur_neg_exact _ Ho). unfold Time_Add, Time_Sub.
  replace (clock - (now + - o)) with (clock - now + o) by lia.
  repeat split; auto.
  - intros Hd. rewrite (sat64_small _ Hd). lia.
  - intros H. apply (proj1 (sat64_neg_iff _)) in H. lia.
  - intros H. apply (proj2 (sat64_neg_iff _)). lia.
Qed.

(** [Stop] freezes the count: on an active stopwatch stopped at [t1], the
    elapsed time and the lap time read at any later moment are the ones of
    the instant [t1]. *)
Theorem Stop_freezes_elapsed_and_lap_time (s : Stopwatch) (t1 clock : Time) :
  IsZero (stop s) = true ->
  IsZero t1 = false ->
  result ElapsedTime clock (exec Stop t1 s) = result ElapsedTime t1 s /\
  result (ElapsedTimeFrom clock) clock (exec Stop t1 s) = result ElapsedTime t1 s /\
  result LapTime clock (exec Stop t1 s) = result LapTime t1 s.
Proof.
  intros Hact Ht1.
  rewrite !LapTime_result, !ElapsedTime_result, ElapsedTimeFrom_result,
    Stop_exec, Hact.
  cbn [start stop mark]. rewrite Ht1. auto.
Qed.

(** A stopwatch created or reset in the stopped state, with any offset but
    the least [Duration] (whose negation overflows), holds the offset until
    [Start], and from then on counts from it: the time spent stopped, if it
    is a [Duration], is not part of the elapsed time. *)
Theorem stopped_stopwatch_counts_from_offset_once_started
  (o : Duration) (now t clock : Time) (s0 : Stopwatch) :
  minDuration < o <= maxDuration ->
  IsZero now = false ->
  is_duration (t - now) ->
  let s := exec (Reset o false) now s0 in
  result ElapsedTime clock s = o /\
  stop (exec Start t s) = zeroTime /\
  result ElapsedTime clock (exec Start t s) = sat64 (clock - t + o).
Proof.
  intros Ho Hnow Hd. cbv zeta.
  rewrite Start_exec, Reset_exec, !ElapsedTime_result. cbn [start stop].
  rewrite Hnow. cbn [start stop]. change (IsZero zeroTime) with true. cbv iota.
  rewrite (dur_neg_exact _ Ho). unfold Time_Add, Time_Sub.
  rewrite (sat64_small _ Hd). repeat split.
  - replace (now - (now + - o)) with o by lia.
    apply sat64_small. unfold is_duration. lia.
  - f_equal. lia.
Qed.

(** [Reset] makes a used stopwatch as good as new: what it leaves depends
    on the old one only through its formatter and formatting mode, so with
    those at their defaults it is the stopwatch [New] returns, and any
    session after it records the same laps. *)
Theorem Reset_forgets_the_past
  (offset : Duration) (act : bool) (clock : Time) (s1 s2 : Stopwatch)
  (ops : list (Time * Op)) :
  formatter s1 = formatter s2 ->
  formattingMode s1 = formattingMode s2 ->
  exec (Reset offset act) clock s1 = exec (Reset offset act) clock s2 /\
  run_ops ops (exec (Reset offset act) clock s1) =
    run_ops ops (exec (Reset offset act) clock s2) /\
  (formatter s1 = Some defaultFormatter ->
   formattingMode s1 = defaultFormattingMode ->
   exec (Reset offset act) clock s1 = New_stopwatch offset act clock).
Proof.
  intros Hf Hm. rewrite !Reset_exec, New_stopwatch_eq, Hf, Hm.
  repeat split. intros -> ->. reflexivity.
Qed.

Lemma pause_step s a b :
  IsZero (stop s) = true -> IsZero a = false -> is_duration (b - a) ->
  exec Start b (exec Stop a s) =
  mkStopwatch (start s + (b - a)) zeroTime (mark s) (laps s)
    (formatter s) (formattingMode s).
Proof.
  intros Hact Ha Hd. rewrite Stop_exec, Hact, Start_exec. cbn [start stop mark laps formatter formattingMode].
  rewrite Ha. unfold Time_Add, Time_Sub. now rewrite (sat64_small _ Hd).
Qed.

(** Any number of pauses: after stopping and resuming an active stopwatch
    again and again, [start] has moved forward by the total length of the
    pauses and nothing else has changed, so the elapsed time is the time
    since the original start less all the pauses. *)
Theorem pauses_are_excluded_from_elapsed_time (pauses : list (Time * Time)) :
  forall (s : Stopwatch),
  IsZero (stop s) = true ->
  Forall (fun p => IsZero (fst p) = false /\ is_duration (snd p - fst p)) pauses ->
  let s' := fst (run_ops (pause_ops pauses) s) in
  s' = mkStopwatch (start s + total_pause pauses) zeroTime (mark s) (laps s)
         (formatter s) (formattingMode s) /\
  snd (run_ops (pause_ops pauses) s) = [] /\
  forall clock,
    result ElapsedTime clock s' = sat64 (clock - start s - total_pause pauses).
Proof.
  induction pauses as [|[a b] rest IH]; intros s Hact Hall; cbv zeta.
  - cbn [pause_ops flat_map run_ops fst snd total_pause fold_right].
    unfold IsZero in Hact. apply Z.eqb_eq in Hact.
    repeat split.
    + destruct s; cbn in *. subst. f_equal. lia.
    + intros clock. rewrite ElapsedTime_result. unfold IsZero.
      rewrite Hact. cbn. unfold Time_Sub. f_equal. lia.
  - apply Forall_cons_iff in Hall. destruct Hall as [[Ha Hd] Hrest].
    cbn [fst snd] in Ha, Hd.
    change (pause_ops ((a, b) :: rest))
      with ((a, OpStop) :: (b, OpStart) :: pause_ops rest).
    rewrite !run_ops_cons. cbn [run_op fst snd app].
    rewrite (pause_step s a b Hact Ha Hd).
    set (s1 := mkStopwatch (start s + (b - a)) zeroTime (mark s) (laps s)
                 (formatter s) (formattingMode s)).
    destruct (IH s1 eq_refl Hrest) as (H1 & H2 & H3).
    cbn [total_pause fold_right fst snd].
    fold (total_pause rest).
    repeat split.
    + rewrite H1. subst s1. cbn. f_equal. lia.
    + exact H2.
    + intros clock. rewrite H3. subst s1. cbn. f_equal. lia.
Qed.

(** What a call does to [start] and [stop] unless it is [Start] or [Stop]:
    nothing. *)
Lemma run_op_frame o clock s :
  o <> OpStart -> o <> OpStop ->
  start (fst (run_op o clock s)) = start s /\
  stop (fst (run_op o clock s)) = stop s.
Proof.
  intros H1 H2.
  destruct o as [c| | |f|m| |now| | | |]; try congruence; cbn [run_op fst];
    [now destruct (lap_call_run c clock s) as (_ & _ & ? & ? & _) | ..];
    rewrite ?String_exec, ?MarshalJSON_exec; auto;
    run_method; by_stop_case s.
Qed.

Lemma Op_eq_Start_Stop (o : Op) :
  (o = OpStart \/ o = OpStop) \/ (o <> OpStart /\ o <> OpStop).
Proof. destruct o; auto; right; split; discriminate. Qed.

(** One call, made no earlier than instant [c]: the elapsed time at its
    own instant, on the stopwatch it leaves, is not below the elapsed time
    at [c] before it. *)
Lemma run_op_elapsed_step o clock s c :
  c <= op_time (clock, o) ->
  (IsZero (stop s) = false -> stop s <= c) ->
  let t := op_time (clock, o) in
  let s' := fst (run_op o clock s) in
  result (ElapsedTimeFrom c) c s <= result (ElapsedTimeFrom t) t s' /\
  result (ElapsedTimeFrom t) t s <= result (ElapsedTimeFrom t) t s' /\
  (IsZero (stop s') = false -> stop s' <= t).
Proof.
  intros Hc Hinv. cbv zeta.
  assert (Hmono : result (ElapsedTimeFrom c) c s <=
                  result (ElapsedTimeFrom (op_time (clock, o))) (op_time (clock, o)) s)
    by now apply ElapsedTimeFrom_mono.
  destruct (Op_eq_Start_Stop o) as [[-> | ->] | [Hn1 Hn2]].
  - (* Start *)
    cbn [op_time snd fst] in *. cbn [run_op fst]. rewrite Start_exec.
    destruct (IsZero (stop s)) eqn:E;
      [repeat split; auto; try lia; intros; congruence|].
    specialize (Hinv eq_refl).
    rewrite !ElapsedTimeFrom_result in *. rewrite E in *.
    cbn [start stop]. change (IsZero zeroTime) with true. cbv iota.
    unfold Time_Add, Time_Sub in *.
    assert (sat64 (clock - stop s) <= clock - stop s)
      by (apply sat64_le_self; unfold minDuration; lia).
    assert (sat64 (stop s - start s) <=
            sat64 (clock - (start s + sat64 (clock - stop s))))
      by (apply sat64_mono; lia).
    repeat split; auto; try lia; discriminate.
  - (* Stop *)
    cbn [op_time snd fst] in *. cbn [run_op fst]. rewrite Stop_exec.
    destruct (IsZero (stop s)) eqn:E.
    + rewrite !ElapsedTimeFrom_result in *. rewrite E in *. cbn [start stop].
      destruct (IsZero clock); repeat split; auto; lia.
    + specialize (Hinv eq_refl). repeat split; auto; lia.
  - destruct (run_op_frame o clock s Hn1 Hn2) as [Hs Hp].
    rewrite (ElapsedTimeFrom_frame _ _ s (fst (run_op o clock s))) by auto.
    rewrite Hp. repeat split; auto; try lia.
    intros H. specialize (Hinv H). lia.
Qed.

Lemma ElapsedTimeFrom_any_clock now k1 k2 s :
  result (ElapsedTimeFrom now) k1 s = result (ElapsedTimeFrom now) k2 s.
Proof. now rewrite !ElapsedTimeFrom_result. Qed.

Lemma elapsed_trace_head c0 ops s :
  exists tl, elapsed_trace c0 ops s = result (ElapsedTimeFrom c0) c0 s :: tl.
Proof. destruct ops as [|[clock o] rest]; eexists; reflexivity. Qed.

(** In a session without [Reset] whose calls come at instants that do not
    go backwards, the elapsed time never decreases, whether the stopwatch
    is stopped, resumed, lapped or read in between.  The session starts at
    instant [c0], not before the stopwatch was last stopped. *)
Theorem elapsed_time_never_decreases (ops : list (Time * Op)) :
  forall (s : Stopwatch) (c0 : Time),
  StronglySorted Z.le (c0 :: map op_time ops) ->
  (IsZero (stop s) = false -> stop s <= c0) ->
  StronglySorted Z.le (elapsed_trace c0 ops s).
Proof.
  induction ops as [|[clock o] rest IH]; intros s c0 Hsorted Hinv.
  - cbn. repeat constructor.
  - cbn [elapsed_trace]. cbn [map] in Hsorted.
    apply StronglySorted_inv in Hsorted. destruct Hsorted as [Hrest Hfirst].
    assert (Hc : c0 <= op_time (clock, o)) by now apply Forall_inv in Hfirst.
    destruct (run_op_elapsed_step o clock s c0 Hc Hinv) as (Hstep & _ & Hinv').
    specialize (IH (fst (run_op o clock s)) (op_time (clock, o)) Hrest Hinv').
    constructor; auto.
    destruct (elapsed_trace_head (op_time (clock, o)) rest (fst (run_op o clock s)))
      as [tl Htl].
    rewrite Htl in *. apply StronglySorted_inv in IH. destruct IH as [_ Hall].
    constructor; auto. eapply Forall_impl; [|exact Hall]. cbn. intros; lia.
Qed.

Lemma total_duration_app l1 l2 :
  total_duration (l1 ++ l2) = total_duration l1 + total_duration l2.
Proof.
  unfold total_duration. induction l1 as [|x l1 IH]; cbn; [reflexivity|].
  rewrite IH. lia.
Qed.

(** The invariant behind non-negative laps: the mark is not negative and
    not above the elapsed time. *)
Lemma run_ops_nonnegative ops : forall s c,
  StronglySorted Z.le (c :: map op_time ops) ->
  (IsZero (stop s) = false -> stop s <= c) ->
  0 <= mark s <= result (ElapsedTimeFrom c) c s ->
  Forall (fun lap => 0 <= lap_duration lap) (snd (run_ops ops s)) /\
  total_duration (snd (run_ops ops s)) =
    mark (fst (run_ops ops s)) - mark s /\
  (forall clock, Forall (fun t => t <= clock) (c :: map op_time ops) ->
     0 <= mark (fst (run_ops ops s)) <=
       result (ElapsedTimeFrom clock) clock (fst (run_ops ops s))).
Proof.
  induction ops as [|[clock o] rest IH]; intros s c Hsorted Hinv Hm.
  - cbn. split; [constructor|]. split; [lia|]. intros clock Hall.
    apply Forall_inv in Hall.
    pose proof (ElapsedTimeFrom_mono c clock c clock s Hall). lia.
  - cbn [map] in Hsorted.
    apply StronglySorted_inv in Hsorted. destruct Hsorted as [Hrest Hfirst].
    assert (Hc : c <= op_time (clock, o)) by now apply Forall_inv in Hfirst.
    destruct (run_op_elapsed_step o clock s c Hc Hinv) as (Hstep & Hstep' & Hinv').
    rewrite run_ops_cons. cbn [fst snd].
    set (t := op_time (clock, o)) in *. set (s1 := fst (run_op o clock s)) in *.
    pose proof (ElapsedTimeFrom_range t t s) as Hr.
    pose proof (ElapsedTimeFrom_mono c t c t s Hc) as Hmono.
    unfold is_duration, minDuration, maxDuration in Hr.
    assert (Hlap : Forall (fun lap => 0 <= lap_duration lap) (snd (run_op o clock s)) /\
                   total_duration (snd (run_op o clock s)) =
                     mark s1 - mark s /\
                   0 <= mark s1 <= result (ElapsedTimeFrom t) t s1).
    { destruct (is_lap_op (clock, o)) eqn:E.
      - destruct o as [lc| | |f|m| |now| | | |]; try discriminate.
        subst s1 t. cbn [run_op fst snd total_duration fold_right op_time] in *.
        destruct (lap_call_run lc clock s) as (Hd & Hmk & Hst & Hsp & _).
        rewrite (ElapsedTimeFrom_frame _ _ s (exec (lap_call lc) clock s)) by auto.
        rewrite (ElapsedTimeFrom_any_clock _ clock (ref_time (clock, lc))) in Hd, Hmk.
        rewrite Hmk.
        assert (Hexact : lap_duration (result (lap_call lc) clock s) =
                  result (ElapsedTimeFrom (ref_time (clock, lc)))
                    (ref_time (clock, lc)) s - mark s).
        { rewrite Hd. apply dur_sub_exact.
          unfold is_duration, minDuration, maxDuration. lia. }
        rewrite Hexact. repeat split; try lia. repeat constructor. lia.
      - destruct (run_op_no_lap o clock s E) as [-> Hmk]. fold s1 in Hmk.
        rewrite Hmk. cbn. repeat split; try constructor; lia. }
    destruct Hlap as (Hl1 & Hl2 & Hl3).
    destruct (IH s1 t Hrest Hinv' Hl3) as (H1 & H2 & H3).
    split; [|split].
    + apply Forall_app. auto.
    + rewrite total_duration_app, Hl2, H2. lia.
    + intros k Hall. apply H3. apply Forall_inv_tail in Hall. exact Hall.
Qed.

(** After [Reset] (hence [New]) with an offset that is not negative, in a
    session whose calls come at instants that do not go backwards, no lap
    has a negative duration; the durations add up, over the integers, to
    the mark; and [LapTime] read at the end is not negative either, the
    elapsed time being the laps recorded plus the lap under way. *)
Theorem laps_are_nonnegative_on_a_monotone_clock
  (offset : Duration) (act : bool) (c0 : Time) (s0 : Stopwatch)
  (ops : list (Time * Op)) :
  0 <= offset <= maxDuration ->
  StronglySorted Z.le (c0 :: map op_time ops) ->
  let s' := fst (run_ops ops (exec (Reset offset act) c0 s0)) in
  let recorded := snd (run_ops ops (exec (Reset offset act) c0 s0)) in
  Forall (fun lap => 0 <= lap_duration lap) recorded /\
  total_duration recorded = mark s' /\
  (forall clock, Forall (fun t => t <= clock) (c0 :: map op_time ops) ->
     0 <= result LapTime clock s' /\
     result ElapsedTime clock s' = total_duration recorded + result LapTime clock s').
Proof.
  intros Ho Hsorted. cbv zeta.
  set (s := exec (Reset offset act) c0 s0).
  assert (Hs : s = mkStopwatch (c0 - offset) (if act then zeroTime else c0) 0 []
                     (formatter s0) (formattingMode s0)).
  { subst s. rewrite Reset_exec, dur_neg_exact
      by (unfold minDuration, maxDuration in *; lia). reflexivity. }
  assert (Hinv : IsZero (stop s) = false -> stop s <= c0).
  { rewrite Hs. cbn. destruct act; [discriminate | lia]. }
  assert (Hm : 0 <= mark s <= result (ElapsedTimeFrom c0) c0 s).
  { rewrite ElapsedTimeFrom_result, Hs. cbn [mark start stop]. unfold Time_Sub.
    assert (H0 : sat64 0 = 0) by reflexivity.
    split; [lia|].
    destruct act; [change (IsZero zeroTime) with true; cbv iota
                  | destruct (IsZero c0)];
      rewrite <- H0 at 1; apply sat64_mono; lia. }
  destruct (run_ops_nonnegative ops s c0 Hsorted Hinv Hm) as (H1 & H2 & H3).
  split; [exact H1|]. split.
  - rewrite H2, Hs. cbn [mark]. lia.
  - intros clock Hall. destruct (H3 clock Hall) as [Ha Hb].
    rewrite LapTime_result, ElapsedTime_is_ElapsedTimeFrom.
    pose proof (ElapsedTimeFrom_range clock clock (fst (run_ops ops s))) as Hr.
    unfold is_duration, minDuration, maxDuration in Hr.
    rewrite dur_sub_exact by (unfold is_duration, minDuration, maxDuration; lia).
    assert (Hm0 : mark s = 0) by (rewrite Hs; reflexivity).
    rewrite H2, Hm0. split; lia.
Qed.

(** [LapTime] changes nothing and announces the next lap: it returns the
    duration a [Lap] call at the same clock reading would record; called
    at the clock reading of the lap just recorded, it returns zero. *)
Theorem LapTime_is_the_duration_of_the_next_lap
  (s : Stopwatch) (clock : Time) (state : string) (c : LapCall) :
  exec LapTime clock s = s /\
  result LapTime clock s = lap_duration (result (Lap_ state) clock s) /\
  result LapTime (ref_time (clock, c)) (exec (lap_call c) clock s) = 0.
Proof.
  split; [apply LapTime_exec|]. split.
  - destruct (lap_call_run (CallLap state) clock s) as (Hd & _).
    cbn [lap_call ref_time fst snd] in Hd.
    now rewrite LapTime_result, Hd, ElapsedTime_is_ElapsedTimeFrom.
  - destruct (lap_call_run c clock s) as (_ & Hm & Hs & Hp & _).
    rewrite LapTime_result, ElapsedTime_is_ElapsedTimeFrom, Hm.
    rewrite (ElapsedTimeFrom_frame _ _ s (exec (lap_call c) clock s)) by auto.
    rewrite (ElapsedTimeFrom_any_clock _ clock (ref_time (clock, c))).
    apply dur_sub_diag.
Qed.

Lemma run_op_read o clock s :
  is_read_op (clock, o) = true ->
  run_op o clock s = (s, []).
Proof.
  destruct o as [c| | |f|m| |now| | | |]; cbn [is_read_op snd]; try discriminate;
    intros _; cbn [run_op]; rewrite ?String_exec, ?MarshalJSON_exec, ?LapTime_exec;
    try reflexivity; f_equal; run_method; by_stop_case s.
Qed.

(** Reading is harmless: dropping every [ElapsedTime], [ElapsedTimeFrom],
    [LapTime], [Laps], [String] and [MarshalJSON] call from a session
    changes neither the stopwatch it ends in nor the laps it records. *)
Theorem reads_do_not_disturb_a_session (ops : list (Time * Op)) :
  forall (s : Stopwatch),
  run_ops ops s = run_ops (filter (fun co => negb (is_read_op co)) ops) s.
Proof.
  induction ops as [|[clock o] rest IH]; intros s; [reflexivity|].
  cbn [filter]. destruct (is_read_op (clock, o)) eqn:E; cbn [negb].
  - rewrite run_ops_cons, (run_op_read o clock s E). cbn [fst snd app].
    rewrite <- IH. now destruct (run_ops rest s).
  - rewrite !run_ops_cons, IH. reflexivity.
Qed.

Lemma lap_call_labels c clock s :
  lap_state (result (lap_call c) clock s) = call_state c /\
  lap_data (result (lap_call c) clock s) = call_data c /\
  lap_formatter (result (lap_call c) clock s) = formatter s.
Proof. destruct c; run_method; by_stop_case s. Qed.

Lemma Laps_result clock s : result Laps clock s = laps s.
Proof. reflexivity. Qed.

(** [Reset] empties the history, and from then on [Laps] returns the laps
    of the lap calls made since, one per call and in call order, each with
    the label and the data its call was given. *)
Theorem Laps_returns_the_laps_since_Reset
  (offset : Duration) (act : bool) (c0 clock : Time) (s0 : Stopwatch)
  (ops : list (Time * Op)) :
  let s' := fst (run_ops ops (exec (Reset offset act) c0 s0)) in
  result Laps c0 (exec (Reset offset act) c0 s0) = [] /\
  map (fun lap => (lap_state lap, lap_data lap)) (result Laps clock s') =
    lap_requests ops /\
  List.length (result Laps clock s') = lap_count ops.
Proof.
  cbv zeta. rewrite !Laps_result, Reset_exec. cbn [laps].
  set (s := mkStopwatch _ _ _ _ _ _).
  destruct (run_ops_history ops s) as [Hl Hn].
  rewrite Hl. subst s. cbn [laps app]. repeat split; auto.
  set (s := mkStopwatch _ _ _ _ _ _). clearbody s. clear Hl Hn.
  revert s. induction ops as [|[k o] rest IH]; intros s; [reflexivity|].
  rewrite run_ops_cons. cbn [snd]. rewrite map_app, IH.
  destruct o as [c| | |f|m| |now| | | |]; cbn [run_op snd map app lap_requests];
    try reflexivity.
  destruct (lap_call_labels c k s) as (-> & -> & _). reflexivity.
Qed.

(** Reference times are not validated: two lap calls in a row on an
    active stopwatch, at reference times [r1] and then [r2] that lie within
    a [Duration] of [start] and of each other (so that nothing saturates or
    wraps), give a second lap of duration [r2 - r1], negative when [r2] is
    the earlier one, and leave the mark at the elapsed time of [r2]. *)
Theorem out_of_order_reference_time_gives_negative_lap
  (s : Stopwatch) (k1 k2 r1 r2 : Time) (st1 st2 : string) (d1 d2 : MapData) :
  IsZero (stop s) = true ->
  is_duration (r1 - start s) -> is_duration (r2 - start s) ->
  is_duration (r2 - r1) ->
  let s1 := exec (LapWithDataAndTime r1 st1 d1) k1 s in
  let lap2 := result (LapWithDataAndTime r2 st2 d2) k2 s1 in
  lap_duration lap2 = r2 - r1 /\
  (r2 < r1 -> lap_duration lap2 < 0) /\
  mark (exec (LapWithDataAndTime r2 st2 d2) k2 s1) = r2 - start s.
Proof.
  intros Hact H1 H2 H12. cbv zeta.
  destruct (LapWithDataAndTime_run r1 st1 d1 k1 s) as [_ ->].
  destruct (LapWithDataAndTime_run r2 st2 d2 k2
              (mkStopwatch (start s) (stop s)
                 (result (ElapsedTimeFrom r1) k1 s)
                 (laps s ++ [mkLap (formatter s) st1
                    (dur_sub (result (ElapsedTimeFrom r1) k1 s) (mark s)) d1])
                 (formatter s) (formattingMode s))) as [-> ->].
  rewrite !ElapsedTimeFrom_result. cbn [start stop mark lap_duration].
  rewrite Hact. unfold Time_Sub. rewrite (sat64_small _ H1), (sat64_small _ H2).
  assert (Hd : dur_sub (r2 - start s) (r1 - start s) = r2 - r1).
  { rewrite dur_sub_exact; [lia|]. now replace (r2 - start s - (r1 - start s))
      with (r2 - r1) by lia. }
  rewrite Hd. repeat split; auto. lia.
Qed.

(* ================================================================== *)
(** ** Further properties: rendering                                   *)
(* ================================================================== *)

Lemma String_result clock s :
  result String_ clock s =
  let m := defaultedFormattingMode (formattingMode s) in
  if String.eqb m FormattingModeJsonSimpleObject then
    option_map (fun results => ("{" ++ Join results ", " ++ "}")%string)
      (collect simpleObjectEntry (laps s))
  else if String.eqb m FormattingModeJsonMsObject then
    option_map (fun results => ("{" ++ Join results ", " ++ "}")%string)
      (collect msObjectEntry (laps s))
  else render_array (laps s).
Proof.
  unfold result, String_, formatAsObject, bind; cbn.
  destruct (String.eqb _ FormattingModeJsonSimpleObject); [reflexivity|].
  destruct (String.eqb _ FormattingModeJsonMsObject); reflexivity.
Qed.

Lemma eqb_ms_simple :
  String.eqb FormattingModeJsonMsObject FormattingModeJsonSimpleObject = false.
Proof. reflexivity. Qed.

(** A stopwatch without laps, as [Reset] leaves it, renders as the empty
    JSON object in the two object modes and as the empty array in every
    other mode; no formatter is called, so nothing can panic. *)
Theorem String_of_an_empty_history
  (s s0 : Stopwatch) (clock : Time) (offset : Duration) (act : bool) :
  laps s = [] ->
  let m := defaultedFormattingMode (formattingMode s) in
  result String_ clock s =
    Some (if String.eqb m FormattingModeJsonSimpleObject then "{}"
          else if String.eqb m FormattingModeJsonMsObject then "{}"
          else "[]")%string /\
  laps (exec (Reset offset act) clock s0) = [].
Proof.
  intros Hl. cbv zeta. rewrite String_result, Hl. cbv zeta.
  split; [|now rewrite Reset_exec].
  destruct (String.eqb _ FormattingModeJsonSimpleObject); [reflexivity|].
  destruct (String.eqb _ FormattingModeJsonMsObject); reflexivity.
Qed.

Lemma collect_ext (f g : Lap -> option string) (h : Lap -> Lap) ls :
  (forall lap, g (h lap) = f lap) ->
  collect g (map h ls) = collect f ls.
Proof.
  intros H. induction ls as [|l ls IH]; cbn; [reflexivity|].
  now rewrite H, IH.
Qed.

(** The object modes drop the metadata: replacing the data of every lap
    changes nothing in the rendering.  The ms-object mode does not call
    the laps' formatters either: whatever they are, [nil] included, it
    returns a text, one entry per lap. *)
Theorem object_modes_ignore_metadata
  (s : Stopwatch) (clock : Time) (data' : Lap -> MapData)
  (formatter' : Lap -> Formatter) :
  let with_laps ls :=
    mkStopwatch (start s) (stop s) (mark s) ls (formatter s) (formattingMode s) in
  let m := defaultedFormattingMode (formattingMode s) in
  (m = FormattingModeJsonSimpleObject \/ m = FormattingModeJsonMsObject ->
   result String_ clock
     (with_laps (map (fun lap => mkLap (lap_formatter lap) (lap_state lap)
                                   (lap_duration lap) (data' lap)) (laps s))) =
   result String_ clock s) /\
  (m = FormattingModeJsonMsObject ->
   result String_ clock
     (with_laps (map (fun lap => mkLap (formatter' lap) (lap_state lap)
                                   (lap_duration lap) (data' lap)) (laps s))) =
   result String_ clock s /\
   exists entries, List.length entries = List.length (laps s) /\
     result String_ clock s = Some ("{" ++ Join entries ", " ++ "}")%string).
Proof.
  cbv zeta. rewrite !String_result. cbn [formattingMode laps]. cbv zeta. split.
  - intros [Hm | Hm]; rewrite Hm, ?eqb_ms_simple, ?String.eqb_refl;
      f_equal; now apply collect_ext.
  - intros Hm. rewrite Hm, eqb_ms_simple, String.eqb_refl. split.
    + f_equal. now apply collect_ext.
    + unfold msObjectEntry. rewrite collect_total. cbn [option_map].
      eexists. split; [|reflexivity]. apply length_map.
Qed.

Lemma collect_None_iff (f : Lap -> option string) ls :
  collect f ls = None <-> Exists (fun lap => f lap = None) ls.
Proof.
  induction ls as [|l ls IH]; cbn.
  - split; [discriminate | intros H; inversion H].
  - destruct (f l) eqn:E.
    + destruct (collect f ls) eqn:E'.
      * split; [discriminate|]. intros H. inversion H; subst; [congruence|].
        apply IH in H1. discriminate.
      * split; auto. intros _. right. now apply IH.
    + split; auto.
Qed.

Lemma simpleObjectEntry_None lap :
  simpleObjectEntry lap = None <-> call_formatter lap = None.
Proof.
  unfold simpleObjectEntry. destruct (call_formatter lap); split; congruence.
Qed.

Lemma formatter_returns_call lap :
  formatter_returns (lap_formatter lap) -> call_formatter lap <> None.
Proof.
  intros (g & Hg & Htot). unfold call_formatter. rewrite Hg. apply Htot.
Qed.

(** In the simple-object mode [String] panics exactly when the call
    [lap.formatter(lap.duration)] panics for some lap, as it does when the
    lap carries the [nil] formatter or one that panics on that duration;
    when every call returns, the result is the braces around the entries,
    the quoted label and the quoted returned text of each lap in order. *)
Theorem simple_object_mode_panics_exactly_when_a_formatter_does
  (s : Stopwatch) (clock : Time) :
  defaultedFormattingMode (formattingMode s) = FormattingModeJsonSimpleObject ->
  (result String_ clock s = None <->
   Exists (fun lap => call_formatter lap = None) (laps s)) /\
  (Exists (fun lap =>
     lap_formatter lap = None \/
     exists g, lap_formatter lap = Some g /\ g (lap_duration lap) = None)
     (laps s) ->
   result String_ clock s = None) /\
  (forall texts, map call_formatter (laps s) = map Some texts ->
   result String_ clock s =
   Some ("{" ++
         Join (map (fun lt =>
                 dquote ++ lap_state (fst lt) ++ dquote ++ ":" ++
                 dquote ++ snd lt ++ dquote)
               (combine (laps s) texts)) ", " ++
         "}")%string).
Proof.
  intros Hm. rewrite String_result. cbv zeta. rewrite Hm, String.eqb_refl.
  assert (Hiff : option_map
                   (fun results => ("{" ++ Join results ", " ++ "}")%string)
                   (collect simpleObjectEntry (laps s)) = None <->
                 Exists (fun lap => call_formatter lap = None) (laps s)).
  { destruct (collect simpleObjectEntry (laps s)) eqn:E; cbn [option_map].
    - split; [discriminate|]. intros H.
      assert (collect simpleObjectEntry (laps s) = None); [|congruence].
      apply collect_None_iff. eapply Exists_impl; [|exact H].
      intros lap. apply simpleObjectEntry_None.
    - split; auto. intros _. apply collect_None_iff in E.
      eapply Exists_impl; [|exact E]. intros lap. apply simpleObjectEntry_None. }
  split; [exact Hiff|]. split.
  - intros H. apply Hiff. eapply Exists_impl; [|exact H].
    intros lap [Hn | (g & Hg & Hp)]; unfold call_formatter.
    + now rewrite Hn.
    + now rewrite Hg.
  - intros texts. generalize (laps s). intros ls Hts.
    assert (Hc : collect simpleObjectEntry ls =
                 Some (map (fun lt =>
                   (dquote ++ lap_state (fst lt) ++ dquote ++ ":" ++
                    dquote ++ snd lt ++ dquote)%string)
                   (combine ls texts))).
    { revert texts Hts. induction ls as [|l ls IH]; intros [|t texts] Hts;
        try discriminate; [reflexivity|].
      cbn [map] in Hts. injection Hts as Ht Hts.
      cbn [collect combine map fst snd]. unfold simpleObjectEntry at 1.
      rewrite Ht, (IH texts Hts). reflexivity. }
    now rewrite Hc.
Qed.

Lemma run_op_formatters o clock s :
  sets_returning_formatter (clock, o) ->
  formatter_returns (formatter s) ->
  Forall (fun lap => formatter_returns (lap_formatter lap)) (laps s) ->
  formatter_returns (formatter (fst (run_op o clock s))) /\
  Forall (fun lap => formatter_returns (lap_formatter lap))
    (laps (fst (run_op o clock s))).
Proof.
  intros Hset Hf Hl. rewrite run_op_history, Forall_app.
  assert (Hrec : Forall (fun lap => formatter_returns (lap_formatter lap))
                   (snd (run_op o clock s))).
  { destruct o as [c| | |f|m| |now| | | |]; cbn [run_op snd]; try constructor;
      [|constructor].
    destruct (lap_call_labels c clock s) as (_ & _ & ->). exact Hf. }
  split; [|split; assumption].
  destruct o as [c| | |f|m| |now| | | |]; cbn [run_op fst];
    rewrite ?String_exec, ?MarshalJSON_exec, ?LapTime_exec, ?Start_exec,
      ?Stop_exec; try assumption;
    try (destruct c); try (run_method; by_stop_case s; fail).
Qed.

(** A stopwatch made by [New] and used in any session that sets no
    formatter but ones that are not [nil] and return on every duration
    does not panic when rendered in an object mode: every lap carries such
    a formatter. *)
Theorem object_rendering_after_New_never_panics
  (offset : Duration) (act : bool) (c0 clock : Time) (ops : list (Time * Op)) :
  Forall sets_returning_formatter ops ->
  let s' := fst (run_ops ops (New_stopwatch offset act c0)) in
  let m := defaultedFormattingMode (formattingMode s') in
  m = FormattingModeJsonSimpleObject \/ m = FormattingModeJsonMsObject ->
  result String_ clock s' <> None /\
  Forall (fun lap => formatter_returns (lap_formatter lap)) (laps s').
Proof.
  intros Hops. cbv zeta.
  assert (Hinv : forall ops s,
            Forall sets_returning_formatter ops ->
            formatter_returns (formatter s) ->
            Forall (fun lap => formatter_returns (lap_formatter lap)) (laps s) ->
            Forall (fun lap => formatter_returns (lap_formatter lap))
              (laps (fst (run_ops ops s)))).
  { clear. induction ops as [|[k o] rest IH]; intros s Hops Hf Hl; [exact Hl|].
    inversion Hops as [|? ? Ho Hrest]; subst.
    rewrite run_ops_cons. cbn [fst].
    destruct (run_op_formatters o k s Ho Hf Hl) as [Hf' Hl']. now apply IH. }
  intros Hm.
  assert (Hall : Forall (fun lap => formatter_returns (lap_formatter lap))
                   (laps (fst (run_ops ops (New_stopwatch offset act c0))))).
  { apply Hinv; auto; rewrite New_stopwatch_eq; cbn; [|constructor].
    exists defaultFormatter. split; [reflexivity | discriminate]. }
  split; [|exact Hall].
  rewrite String_result. cbv zeta.
  destruct Hm as [Hm | Hm]; rewrite Hm, ?eqb_ms_simple, ?String.eqb_refl.
  - intros H. destruct (collect simpleObjectEntry _) eqn:E; [discriminate|].
    apply collect_None_iff in E. apply Exists_exists in E.
    destruct E as (lap & Hin & Hn). apply simpleObjectEntry_None in Hn.
    rewrite Forall_forall in Hall.
    exact (formatter_returns_call lap (Hall lap Hin) Hn).
  - unfold msObjectEntry. rewrite collect_total. discriminate.
Qed.

Lemma run_op_formatter o clock s :
  formatter (fst (run_op o clock s)) =
  match o with OpSetFormatter f => f | _ => formatter s end.
Proof.
  destruct o as [c| | |f|m| |now| | | |]; cbn [run_op fst];
    rewrite ?String_exec, ?MarshalJSON_exec, ?LapTime_exec, ?Start_exec,
      ?Stop_exec; try reflexivity;
    try (destruct c); run_method; by_stop_case s.
Qed.

Lemma run_ops_formatter ops : forall s,
  formatter (fst (run_ops ops s)) = last_formatter (formatter s) ops.
Proof.
  induction ops as [|[k o] rest IH]; intros s; [reflexivity|].
  rewrite run_ops_cons. cbn [fst]. rewrite IH, run_op_formatter.
  destruct o; reflexivity.
Qed.

(** [SetFormatter] is not retroactive: the history and its rendering stay
    as they were, and the next lap carries the new formatter; in general a
    lap carries the formatter most recently set before its call. *)
Theorem SetFormatter_applies_to_later_laps_only
  (s : Stopwatch) (f : Formatter) (clock k : Time) (c : LapCall)
  (ops : list (Time * Op)) :
  (laps (exec (SetFormatter f) clock s) = laps s /\
   result String_ k (exec (SetFormatter f) clock s) = result String_ k s) /\
  laps (exec (lap_call c) k (exec (SetFormatter f) clock s)) =
    laps s ++ [result (lap_call c) k (exec (SetFormatter f) clock s)] /\
  lap_formatter (result (lap_call c) k (exec (SetFormatter f) clock s)) = f /\
  lap_formatter (result (lap_call c) k (fst (run_ops ops s))) =
    last_formatter (formatter s) ops.
Proof.
  repeat split.
  - rewrite !String_result. reflexivity.
  - now destruct (lap_call_run c k (exec (SetFormatter f) clock s))
      as (_ & _ & _ & _ & ->).
  - now destruct (lap_call_labels c k (exec (SetFormatter f) clock s))
      as (_ & _ & ->).
  - destruct (lap_call_labels c k (fst (run_ops ops s))) as (_ & _ & ->).
    apply run_ops_formatter.
Qed.

(** Every lap a session records after [New] has an [int64] duration, so
    in ms-object mode each value is printed as a numeral with exactly
    three digits after the point. *)
Theorem recorded_laps_print_with_three_decimals
  (offset : Duration) (act : bool) (c0 : Time) (ops : list (Time * Op)) :
  let s' := fst (run_ops ops (New_stopwatch offset act c0)) in
  Forall (fun lap =>
    is_duration (lap_duration lap) /\
    three_decimals (Sprintf_3f (msValue (lap_duration lap)))) (laps s').
Proof.
  cbv zeta. destruct (run_ops_history ops (New_stopwatch offset act c0)) as [-> _].
  rewrite New_stopwatch_eq. cbn [laps app].
  eapply Forall_impl; [|apply run_ops_durations_range].
  cbv beta. intros lap Hd. split; [exact Hd | now apply msValue_three_decimals].
Qed.

(* ================================================================== *)
(** ** Further properties: the mutex                                   *)
(* ================================================================== *)

Lemma lock_run_app tr1 tr2 : forall st,
  lock_run st (tr1 ++ tr2) =
  match lock_run st tr1 with
  | None => None
  | Some st' => lock_run st' tr2
  end.
Proof.
  induction tr1 as [|e tr1 IH]; intros st; cbn; [reflexivity|].
  destruct (lock_step st e); [apply IH | reflexivity].
Qed.

Lemma MarshalJSON_events clock s :
  events MarshalJSON clock s = events String_ clock s.
Proof.
  unfold events, MarshalJSON, bind. destruct (String_ clock s) as [[r s1] t1].
  cbn. apply app_nil_r.
Qed.

Lemma locking_op_accepted o clock s :
  is_locking_op (clock, o) = true ->
  lock_run Free (events_op o clock s) = Some Free.
Proof.
  destruct o as [c| | |f|m| |now| | | |]; cbn [is_locking_op snd events_op];
    try discriminate; intros _;
    rewrite ?MarshalJSON_events, ?String_events; try reflexivity;
    try (destruct c); run_method; by_stop_case s.
Qed.

(** Every call that locks takes the mutex when it is free, touches the
    fields only while holding it (writing only under the write lock),
    never acquires it a second time, and has released it when it returns;
    so does [New], and so does any session of such calls.  [ElapsedTime]
    and [ElapsedTimeFrom] are different: they are in order exactly when
    the caller already holds the lock. *)
Theorem sessions_respect_the_mutex
  (ops : list (Time * Op)) (s : Stopwatch)
  (offset : Duration) (act : bool) (clock now : Time) :
  (forallb is_locking_op ops = true ->
   lock_run Free (events_ops ops s) = Some Free) /\
  lock_run Free (events (New offset act) clock s) = Some Free /\
  (lock_run Free (events ElapsedTime clock s) = None /\
   lock_run Free (events (ElapsedTimeFrom now) clock s) = None) /\
  (forall st, st <> Free ->
     lock_run st (events ElapsedTime clock s) = Some st /\
     lock_run st (events (ElapsedTimeFrom now) clock s) = Some st).
Proof.
  split; [|split; [|split]].
  - revert s. induction ops as [|[k o] rest IH]; intros s Hall; [reflexivity|].
    cbn [forallb] in Hall. apply andb_true_iff in Hall. destruct Hall as [Ho Hrest].
    cbn [events_ops]. rewrite lock_run_app, (locking_op_accepted o k s Ho).
    now apply IH.
  - run_method. now destruct act.
  - split; run_method; by_stop_case s.
  - intros st Hst. destruct st; try congruence; split; run_method; by_stop_case s.
Qed.

End StopwatchModel.

(* ================================================================== *)
(** ** Concrete runs                                                   *)
(* ================================================================== *)

(** claim C1, at a run: a lap at reference time 1250 on a stopwatch started at
    1000 whose mark is 100 lasts 150ns. *)
Lemma C1_witness :
  is_duration
    (result (ElapsedTimeFrom 1250) 1300
       (exec (Lap_ tt "a"%string) 1100
          (New_stopwatch (MapData := unit) (fun _ => EmptyString) 0 true 1000))
     - mark (exec (Lap_ tt "a"%string) 1100
               (New_stopwatch (MapData := unit) (fun _ => EmptyString) 0 true 1000))) /\
  lap_duration
    (result (LapWithDataAndTime 1250 "b"%string tt) 1300
       (exec (Lap_ tt "a"%string) 1100
          (New_stopwatch (MapData := unit) (fun _ => EmptyString) 0 true 1000)))
  = 150.
Proof.
  assert (Hd : is_duration
    (result (ElapsedTimeFrom 1250) 1300
       (exec (Lap_ tt "a"%string) 1100
          (New_stopwatch (MapData := unit) (fun _ => EmptyString) 0 true 1000))
     - mark (exec (Lap_ tt "a"%string) 1100
               (New_stopwatch (MapData := unit) (fun _ => EmptyString) 0 true 1000)))).
  { vm_compute. split; discriminate. }
  split; [exact Hd|].
  exact (proj1 (proj2 (proj1
    (C1_LapWithDataAndTime_records_lap tt
       (exec (Lap_ tt "a"%string) 1100
          (New_stopwatch (MapData := unit) (fun _ => EmptyString) 0 true 1000))
       1300 1250 "b"%string tt))) Hd).
Defined.

(** claim C2, at a run: started at 1000, a lap at 1100, stopped at 1200, resumed
    at 1500, a lap at reference time 1600: the two laps last 100ns and
    200ns, and 300ns have elapsed. *)
Lemma C2_witness :
  mark (New_stopwatch (MapData := unit) (fun _ => EmptyString) 0 true 1000) = 0 /\
  sumDurations
    (snd (run_ops tt (fun l => Some (lap_state l))
            ([(1100, OpLap (CallLap "a"%string)); (1200, OpStop);
              (1300, OpLapTime); (1500, OpStart)] ++
             [(1550, OpLap (CallLapWithDataAndTime 1600 "b"%string tt))])
            (New_stopwatch (fun _ => EmptyString) 0 true 1000))) = 300.
Proof.
  split; [reflexivity|].
  exact (proj1 (proj2 (proj2
    (C2_lap_durations_sum_to_elapsed tt (fun l => Some (lap_state l))
       (New_stopwatch (fun _ => EmptyString) 0 true 1000)
       [(1100, OpLap (CallLap "a"%string)); (1200, OpStop);
        (1300, OpLapTime); (1500, OpStart)]
       1550 (CallLapWithDataAndTime 1600 "b"%string tt) eq_refl)))).
Defined.

(** claim C3, at a run: started at 1000, stopped at 2000, resumed at 5000; the
    elapsed time right after resuming is the frozen 1000ns. *)
Lemma C3_witness :
  IsZero (stop (exec Stop 2000
                  (New_stopwatch (MapData := unit) (fun _ => EmptyString) 0 true 1000))) = false /\
  is_duration (5000 - stop (exec Stop 2000
                  (New_stopwatch (MapData := unit) (fun _ => EmptyString) 0 true 1000))) /\
  result ElapsedTime 5000
    (exec Start 5000
       (exec Stop 2000
          (New_stopwatch (MapData := unit) (fun _ => EmptyString) 0 true 1000))) = 1000.
Proof.
  assert (Hd : is_duration (5000 - stop (exec Stop 2000
                  (New_stopwatch (MapData := unit) (fun _ => EmptyString) 0 true 1000)))).
  { vm_compute. split; discriminate. }
  split; [reflexivity|]. split; [exact Hd|].
  exact (proj1 (proj2
    (C3_Start_excludes_the_pause
       (exec Stop 2000 (New_stopwatch (fun _ => EmptyString) 0 true 1000))
       5000 eq_refl Hd))).
Defined.

(** claim C4 (amended), at a run: laps at 1010, 1020 and 1030 on a stopwatch started
    at 1000 take the mark through 0, 10, 20, 30. *)
Lemma C4_witness :
  StronglySorted Z.le
    (map (ref_time (MapData := unit))
       [(1010, CallLap "a"%string); (1020, CallLapWithData "b"%string tt);
        (1025, CallLapWithDataAndTime 1030 "c"%string tt)]) /\
  StronglySorted Z.le
    (mark_history tt
       [(1010, CallLap "a"%string); (1020, CallLapWithData "b"%string tt);
        (1025, CallLapWithDataAndTime 1030 "c"%string tt)]
       (New_stopwatch (fun _ => EmptyString) 0 true 1000)).
Proof.
  assert (Hs : StronglySorted Z.le
    (map (ref_time (MapData := unit))
       [(1010, CallLap "a"%string); (1020, CallLapWithData "b"%string tt);
        (1025, CallLapWithDataAndTime 1030 "c"%string tt)])).
  { cbn. repeat first [apply SSorted_nil | apply SSorted_cons | apply Forall_nil
                      | apply Forall_cons | discriminate]. }
  split; [exact Hs|].
  refine (proj1 (C4_mark_nondecreasing_for_ordered_laps tt
            (New_stopwatch (fun _ => EmptyString) 0 true 1000) _ Hs _)).
  intros cc Hcc. injection Hcc as <-. vm_compute. discriminate.
Defined.

(** claim C4 as stated fails: with a negative offset the first lap moves the
    mark from zero down to a negative value, and a lap whose reference time
    is the start instant brings a positive mark back to zero. *)
Lemma C4_counterexample :
  ~ StronglySorted Z.le
      (mark_history tt [(1001, CallLap "a"%string)]
         (New_stopwatch (MapData := unit) (fun _ => EmptyString)
            (-5000000000) true 1000)) /\
  mark_history tt
    [(1200, CallLap "a"%string);
     (1300, CallLapWithDataAndTime 1000 "b"%string tt)]
    (New_stopwatch (MapData := unit) (fun _ => EmptyString) 0 true 1000)
  = [0; 200; 0].
Proof.
  split; [|reflexivity].
  intros H. apply StronglySorted_inv in H. destruct H as [_ H].
  apply Forall_inv in H. vm_compute in H. now apply H.
Qed.

(** claim C5 (amended), at a run: an offset of minus five seconds. *)
Lemma C5_witness :
  (minDuration < -5000000000 <= maxDuration) /\
  IsZero 63900000000000000000 = false /\
  result ElapsedTime 63900000000000000777
    (New_stopwatch (MapData := unit) (fun _ => EmptyString)
       (-5000000000) false 63900000000000000000) = -5000000000.
Proof.
  assert (Ho : minDuration < -5000000000 <= maxDuration).
  { vm_compute. split; [reflexivity | discriminate]. }
  split; [exact Ho|]. split; [reflexivity|].
  exact (proj2 (proj2
    (C5_New_stopped_elapsed_is_offset (MapData := unit) (fun _ => EmptyString)
       (-5000000000) 63900000000000000000 63900000000000000777 Ho eq_refl))).
Defined.

(** claim C5 as stated fails at the least offset: negating it wraps around, the
    start lands [2^63] nanoseconds before now and the elapsed time is the
    greatest duration, not the offset. *)
Lemma C5_counterexample :
  is_duration minDuration /\
  start (New_stopwatch (MapData := unit) (fun _ => EmptyString)
           minDuration false 63900000000000000000)
    <> 63900000000000000000 - minDuration /\
  result ElapsedTime 63900000000000000000
    (New_stopwatch (MapData := unit) (fun _ => EmptyString)
       minDuration false 63900000000000000000) = maxDuration /\
  result ElapsedTime 63900000000000000000
    (New_stopwatch (MapData := unit) (fun _ => EmptyString)
       minDuration false 63900000000000000000) <> minDuration.
Proof.
  vm_compute. repeat split; discriminate.
Qed.

(** claim C6, at a run: stopping at 2000 and again at 3000. *)
Lemma C6_witness :
  IsZero 2000 = false /\
  exec Stop 3000
    (exec Stop 2000
       (New_stopwatch (MapData := unit) (fun _ => EmptyString) 0 true 1000)) =
  exec Stop 2000
    (New_stopwatch (MapData := unit) (fun _ => EmptyString) 0 true 1000).
Proof.
  split; [reflexivity|].
  exact (proj1 (proj2 (proj2
    (C6_Stop_and_Start_are_idempotent
       (New_stopwatch (MapData := unit) (fun _ => EmptyString) 0 true 1000)
       2000 3000 eq_refl)))).
Defined.

(** claim C7, at a run: the empty mode on a stopwatch with two laps. *)
Lemma C7_witness :
  (EmptyString <> FormattingModeJsonArray /\
   EmptyString <> FormattingModeJsonSimpleObject /\
   EmptyString <> FormattingModeJsonMsObject) /\
  result (String_ (fun l => Some (lap_state l))) 1300
    (exec (SetFormattingMode EmptyString) 1300
       (exec (Lap_ tt "b"%string) 1200
          (exec (Lap_ tt "a"%string) 1100
             (New_stopwatch (fun _ => EmptyString) 0 true 1000)))) =
  result (String_ (fun l => Some (lap_state l))) 1300
    (exec (SetFormattingMode FormattingModeJsonArray) 1300
       (exec (Lap_ tt "b"%string) 1200
          (exec (Lap_ tt "a"%string) 1100
             (New_stopwatch (fun _ => EmptyString) 0 true 1000)))).
Proof.
  assert (H1 : EmptyString <> FormattingModeJsonArray) by discriminate.
  assert (H2 : EmptyString <> FormattingModeJsonSimpleObject) by discriminate.
  assert (H3 : EmptyString <> FormattingModeJsonMsObject) by discriminate.
  split; [auto|].
  exact (C7_unknown_mode_renders_as_array (fun l => Some (lap_state l))
           (exec (Lap_ tt "b"%string) 1200
              (exec (Lap_ tt "a"%string) 1100
                 (New_stopwatch (fun _ => EmptyString) 0 true 1000)))
           EmptyString 1300 H1 H2 H3).
Defined.

(** claim C9 as stated fails for the [ElapsedTime] family: the two methods are
    exported, read [stop] and [start], and perform no lock operation. *)
Lemma C9_counterexample :
  events ElapsedTime 2000
    (New_stopwatch (MapData := unit) (fun _ => EmptyString) 0 true 1000)
  = [EvRead Fstop; EvRead Fstart] /\
  holds_shared
    (events ElapsedTime 2000
       (New_stopwatch (MapData := unit) (fun _ => EmptyString) 0 true 1000))
  <> true /\
  holds_shared
    (events (ElapsedTimeFrom 2000) 2000
       (New_stopwatch (MapData := unit) (fun _ => EmptyString) 0 true 1000))
  <> true.
Proof.
  vm_compute. repeat split; discriminate.
Qed.

(** claim C10, at a run: stopped at 2000 after starting at 1000; the first lap
    takes the frozen 1000ns, the laps after it take nothing. *)
Lemma C10_witness :
  IsZero (stop (exec Stop 2000
                  (New_stopwatch (MapData := unit) (fun _ => EmptyString) 0 true 1000))) = false /\
  Forall (fun co => snd co <> OpStart)
    [(2600, OpLap (CallLap "b"%string)); (2650, OpStop (MapData := unit));
     (2700, OpLap (CallLapWithDataAndTime 9999 "c"%string tt))] /\
  Forall (fun lap => lap_duration lap = 0)
    (snd (run_ops tt (fun l => Some (lap_state l))
            [(2600, OpLap (CallLap "b"%string)); (2650, OpStop);
             (2700, OpLap (CallLapWithDataAndTime 9999 "c"%string tt))]
            (exec (lap_call tt (CallLap "a"%string)) 2500
               (exec Stop 2000
                  (New_stopwatch (fun _ => EmptyString) 0 true 1000))))).
Proof.
  assert (Hns : Forall (fun co => snd co <> OpStart)
    [(2600, OpLap (CallLap "b"%string)); (2650, OpStop (MapData := unit));
     (2700, OpLap (CallLapWithDataAndTime 9999 "c"%string tt))]).
  { repeat constructor; discriminate. }
  split; [reflexivity|]. split; [exact Hns|].
  exact (proj2
    (C10_laps_while_stopped_have_zero_duration tt (fun l => Some (lap_state l))
       (exec Stop 2000 (New_stopwatch (fun _ => EmptyString) 0 true 1000))
       [(2600, OpLap (CallLap "b"%string)); (2650, OpStop);
        (2700, OpLap (CallLapWithDataAndTime 9999 "c"%string tt))]
       eq_refl Hns) 2500 (CallLap "a"%string)).
Defined.



(* ================================================================== *)
(** ** Concrete runs of the further properties                         *)
(* ================================================================== *)

(** A countdown: five seconds before the start, reset at 1000 and read at
    2000. *)
Lemma Reset_active_counts_from_offset_witness :
  (minDuration < -5000000000 <= maxDuration) /\
  result ElapsedTime 2000
    (exec (Reset (-5000000000) true) 1000 (zeroStopwatch (MapData := unit)))
  = -4999999000.
Proof.
  assert (Ho : minDuration < -5000000000 <= maxDuration).
  { vm_compute. split; [reflexivity | discriminate]. }
  split; [exact Ho|].
  exact (proj1 (proj1
    (Reset_active_counts_from_offset (fun _ => EmptyString)
       (-5000000000) 1000 2000 (zeroStopwatch (MapData := unit)) Ho))).
Defined.

(** Created stopped at 1000 with ten seconds on the clock, started at 4000,
    read at 4500. *)
Lemma stopped_stopwatch_counts_from_offset_once_started_witness :
  (minDuration < 10000000000 <= maxDuration) /\
  IsZero 1000 = false /\
  is_duration (4000 - 1000) /\
  result ElapsedTime 4500
    (exec Start 4000
       (exec (Reset 10000000000 false) 1000 (zeroStopwatch (MapData := unit))))
  = 10000000500.
Proof.
  assert (Ho : minDuration < 10000000000 <= maxDuration).
  { vm_compute. split; [reflexivity | discriminate]. }
  assert (Hd : is_duration (4000 - 1000)).
  { vm_compute. split; discriminate. }
  split; [exact Ho|]. split; [reflexivity|]. split; [exact Hd|].
  exact (proj2 (proj2
    (stopped_stopwatch_counts_from_offset_once_started
       10000000000 1000 4000 4500 (zeroStopwatch (MapData := unit))
       Ho eq_refl Hd))).
Defined.

(** Two stopwatches with different pasts, reset alike. *)
Lemma Reset_forgets_the_past_witness :
  formatter (New_stopwatch (MapData := unit) (fun _ => EmptyString) 0 true 1000) =
  formatter (exec (Lap_ tt "a"%string) 1500
               (New_stopwatch (fun _ => EmptyString) 7 false 1200)) /\
  formattingMode (New_stopwatch (MapData := unit) (fun _ => EmptyString) 0 true 1000) =
  formattingMode (exec (Lap_ tt "a"%string) 1500
                    (New_stopwatch (fun _ => EmptyString) 7 false 1200)) /\
  exec (Reset 5 true) 2000
    (New_stopwatch (MapData := unit) (fun _ => EmptyString) 0 true 1000) =
  exec (Reset 5 true) 2000
    (exec (Lap_ tt "a"%string) 1500
       (New_stopwatch (fun _ => EmptyString) 7 false 1200)).
Proof.
  split; [reflexivity|]. split; [reflexivity|].
  exact (proj1
    (Reset_forgets_the_past tt (fun _ => EmptyString) (fun l => Some (lap_state l))
       5 true 2000
       (New_stopwatch (MapData := unit) (fun _ => EmptyString) 0 true 1000)
       (exec (Lap_ tt "a"%string) 1500
          (New_stopwatch (fun _ => EmptyString) 7 false 1200))
       [] eq_refl eq_refl)).
Defined.

(** Started at 1000, stopped at 2000, read at 9000. *)
Lemma Stop_freezes_elapsed_and_lap_time_witness :
  IsZero (stop (New_stopwatch (MapData := unit) (fun _ => EmptyString) 0 true 1000)) = true /\
  IsZero 2000 = false /\
  result ElapsedTime 9000
    (exec Stop 2000
       (New_stopwatch (MapData := unit) (fun _ => EmptyString) 0 true 1000))
  = 1000.
Proof.
  split; [reflexivity|]. split; [reflexivity|].
  exact (proj1
    (Stop_freezes_elapsed_and_lap_time
       (New_stopwatch (MapData := unit) (fun _ => EmptyString) 0 true 1000)
       2000 9000 eq_refl eq_refl)).
Defined.

(** Started at 1000, paused from 2000 to 2500 and from 3000 to 3100, read
    at 4000: 2400ns have elapsed. *)
Lemma pauses_are_excluded_from_elapsed_time_witness :
  IsZero (stop (New_stopwatch (MapData := unit) (fun _ => EmptyString) 0 true 1000)) = true /\
  Forall (fun p => IsZero (fst p) = false /\ is_duration (snd p - fst p))
    [(2000, 2500); (3000, 3100)] /\
  result ElapsedTime 4000
    (fst (run_ops tt (fun l => Some (lap_state l))
            (pause_ops [(2000, 2500); (3000, 3100)])
            (New_stopwatch (MapData := unit) (fun _ => EmptyString) 0 true 1000)))
  = 2400.
Proof.
  assert (Hp : Forall (fun p => IsZero (fst p) = false /\ is_duration (snd p - fst p))
                 [(2000, 2500); (3000, 3100)]).
  { repeat constructor; vm_compute; discriminate. }
  split; [reflexivity|]. split; [exact Hp|].
  exact (proj2 (proj2
    (pauses_are_excluded_from_elapsed_time tt (fun l => Some (lap_state l))
       [(2000, 2500); (3000, 3100)]
       (New_stopwatch (MapData := unit) (fun _ => EmptyString) 0 true 1000)
       eq_refl Hp)) 4000).
Defined.

(** A session on a clock that moves forward: lap, stop, resume, read, lap. *)
Lemma elapsed_time_never_decreases_witness :
  StronglySorted Z.le
    (1000 :: map (op_time (MapData := unit))
       [(1100, OpLap (CallLap "a"%string)); (1200, OpStop); (1500, OpStart);
        (1600, OpLapTime); (1650, OpLap (CallLapWithDataAndTime 1700 "b"%string tt))]) /\
  StronglySorted Z.le
    (elapsed_trace tt (fun l => Some (lap_state l)) 1000
       [(1100, OpLap (CallLap "a"%string)); (1200, OpStop); (1500, OpStart);
        (1600, OpLapTime); (1650, OpLap (CallLapWithDataAndTime 1700 "b"%string tt))]
       (New_stopwatch (fun _ => EmptyString) 0 true 1000)).
Proof.
  assert (Hs : StronglySorted Z.le
    (1000 :: map (op_time (MapData := unit))
       [(1100, OpLap (CallLap "a"%string)); (1200, OpStop); (1500, OpStart);
        (1600, OpLapTime); (1650, OpLap (CallLapWithDataAndTime 1700 "b"%string tt))])).
  { cbn. repeat first [apply SSorted_nil | apply SSorted_cons | apply Forall_nil
                      | apply Forall_cons | discriminate]. }
  split; [exact Hs|].
  refine (elapsed_time_never_decreases tt (fun l => Some (lap_state l)) _
            (New_stopwatch (fun _ => EmptyString) 0 true 1000) 1000 Hs _).
  intros H. discriminate H.
Defined.

(** The same session after [Reset]: two laps, of 100ns and 300ns. *)
Lemma laps_are_nonnegative_on_a_monotone_clock_witness :
  (0 <= 0 <= maxDuration) /\
  StronglySorted Z.le
    (1000 :: map (op_time (MapData := unit))
       [(1100, OpLap (CallLap "a"%string)); (1200, OpStop); (1500, OpStart);
        (1600, OpLapTime); (1650, OpLap (CallLapWithDataAndTime 1700 "b"%string tt))]) /\
  Forall (fun lap => 0 <= lap_duration lap)
    (snd (run_ops tt (fun l => Some (lap_state l))
            [(1100, OpLap (CallLap "a"%string)); (1200, OpStop); (1500, OpStart);
             (1600, OpLapTime); (1650, OpLap (CallLapWithDataAndTime 1700 "b"%string tt))]
            (exec (Reset 0 true) 1000 zeroStopwatch))).
Proof.
  assert (Ho : 0 <= 0 <= maxDuration).
  { vm_compute. split; discriminate. }
  assert (Hs : StronglySorted Z.le
    (1000 :: map (op_time (MapData := unit))
       [(1100, OpLap (CallLap "a"%string)); (1200, OpStop); (1500, OpStart);
        (1600, OpLapTime); (1650, OpLap (CallLapWithDataAndTime 1700 "b"%string tt))])).
  { cbn. repeat first [apply SSorted_nil | apply SSorted_cons | apply Forall_nil
                      | apply Forall_cons | discriminate]. }
  split; [exact Ho|]. split; [exact Hs|].
  exact (proj1
    (laps_are_nonnegative_on_a_monotone_clock tt (fun l => Some (lap_state l))
       0 true 1000 zeroStopwatch _ Ho Hs)).
Defined.

(** A fresh stopwatch renders as the empty array. *)
Lemma String_of_an_empty_history_witness :
  laps (New_stopwatch (MapData := unit) (fun _ => EmptyString) 0 true 1000) = [] /\
  result (String_ (fun l => Some (lap_state l))) 2000
    (New_stopwatch (MapData := unit) (fun _ => EmptyString) 0 true 1000)
  = Some "[]"%string.
Proof.
  split; [reflexivity|].
  exact (proj1
    (String_of_an_empty_history (fun l => Some (lap_state l))
       (New_stopwatch (MapData := unit) (fun _ => EmptyString) 0 true 1000)
       zeroStopwatch 2000 0 true eq_refl)).
Defined.

(** One lap with metadata [true], rendered in simple-object mode with the
    metadata replaced by [false]. *)
Lemma object_modes_ignore_metadata_witness :
  defaultedFormattingMode
    (formattingMode
       (exec (SetFormattingMode FormattingModeJsonSimpleObject) 1300
          (exec (LapWithData "a"%string true) 1200
             (New_stopwatch (MapData := bool) (fun _ => "200ns"%string) 0 true 1000))))
  = FormattingModeJsonSimpleObject /\
  result (String_ (fun l => Some (lap_state l))) 1400
    (mkStopwatch 1000 0 200
       [mkLap (Some (fun _ => Some "200ns"%string)) "a"%string 200 false]
       (Some (fun _ => Some "200ns"%string)) FormattingModeJsonSimpleObject)
  = result (String_ (fun l => Some (lap_state l))) 1400
      (exec (SetFormattingMode FormattingModeJsonSimpleObject) 1300
         (exec (LapWithData "a"%string true) 1200
            (New_stopwatch (MapData := bool) (fun _ => "200ns"%string) 0 true 1000))).
Proof.
  split; [reflexivity|].
  exact (proj1
    (object_modes_ignore_metadata (fun l => Some (lap_state l))
       (exec (SetFormattingMode FormattingModeJsonSimpleObject) 1300
          (exec (LapWithData "a"%string true) 1200
             (New_stopwatch (MapData := bool) (fun _ => "200ns"%string) 0 true 1000)))
       1400 (fun _ => false) (fun _ => None))
    (or_introl eq_refl)).
Defined.

(** One lap formatted as [200ns], rendered in simple-object mode. *)
Lemma simple_object_mode_panics_exactly_when_a_formatter_does_witness :
  defaultedFormattingMode
    (formattingMode
       (exec (SetFormattingMode FormattingModeJsonSimpleObject) 1300
          (exec (Lap_ tt "a"%string) 1200
             (New_stopwatch (MapData := unit) (fun _ => "200ns"%string) 0 true 1000))))
  = FormattingModeJsonSimpleObject /\
  result (String_ (fun l => Some (lap_state l))) 1400
    (exec (SetFormattingMode FormattingModeJsonSimpleObject) 1300
       (exec (Lap_ tt "a"%string) 1200
          (New_stopwatch (MapData := unit) (fun _ => "200ns"%string) 0 true 1000)))
  = Some ("{" ++ dquote ++ "a" ++ dquote ++ ":" ++ dquote ++ "200ns" ++ dquote ++ "}")%string.
Proof.
  split; [reflexivity|].
  exact (proj2 (proj2
    (simple_object_mode_panics_exactly_when_a_formatter_does
       (fun l => Some (lap_state l))
       (exec (SetFormattingMode FormattingModeJsonSimpleObject) 1300
          (exec (Lap_ tt "a"%string) 1200
             (New_stopwatch (MapData := unit) (fun _ => "200ns"%string) 0 true 1000)))
       1400 eq_refl))
    ["200ns"%string] eq_refl).
Defined.

(** A session that changes the formatter and ends in simple-object mode. *)
Lemma object_rendering_after_New_never_panics_witness :
  Forall (sets_returning_formatter (MapData := unit))
    [(1100, OpLap (CallLap "a"%string));
     (1200, OpSetFormatter (Some (fun _ => Some "x"%string)));
     (1300, OpLap (CallLap "b"%string));
     (1400, OpSetFormattingMode FormattingModeJsonSimpleObject)] /\
  result (String_ (fun l => Some (lap_state l))) 1500
    (fst (run_ops tt (fun l => Some (lap_state l))
            [(1100, OpLap (CallLap "a"%string));
             (1200, OpSetFormatter (Some (fun _ => Some "x"%string)));
             (1300, OpLap (CallLap "b"%string));
             (1400, OpSetFormattingMode FormattingModeJsonSimpleObject)]
            (New_stopwatch (fun _ => "y"%string) 0 true 1000)))
  <> None.
Proof.
  assert (Hops : Forall (sets_returning_formatter (MapData := unit))
            [(1100, OpLap (CallLap "a"%string));
             (1200, OpSetFormatter (Some (fun _ => Some "x"%string)));
             (1300, OpLap (CallLap "b"%string));
             (1400, OpSetFormattingMode FormattingModeJsonSimpleObject)]).
  { apply Forall_cons; [exact I|].
    apply Forall_cons;
      [exists (fun _ => Some "x"%string); split; [reflexivity | discriminate]|].
    apply Forall_cons; [exact I|]. apply Forall_cons; [exact I|].
    apply Forall_nil. }
  split; [exact Hops|].
  exact (proj1
    (object_rendering_after_New_never_panics tt (fun _ => "y"%string)
       (fun l => Some (lap_state l)) 0 true 1000 1500
       [(1100, OpLap (CallLap "a"%string));
        (1200, OpSetFormatter (Some (fun _ => Some "x"%string)));
        (1300, OpLap (CallLap "b"%string));
        (1400, OpSetFormattingMode FormattingModeJsonSimpleObject)]
       Hops (or_introl eq_refl))).
Defined.

(** A session of locking calls leaves the mutex free. *)
Lemma sessions_respect_the_mutex_witness :
  forallb (is_locking_op (MapData := unit))
    [(1100, OpLap (CallLap "a"%string)); (1200, OpStop); (1300, OpLapTime);
     (1400, OpString); (1500, OpStart); (1600, OpLaps)] = true /\
  lock_run Free
    (events_ops tt (fun l => Some (lap_state l))
       [(1100, OpLap (CallLap "a"%string)); (1200, OpStop); (1300, OpLapTime);
        (1400, OpString); (1500, OpStart); (1600, OpLaps)]
       (New_stopwatch (fun _ => EmptyString) 0 true 1000))
  = Some Free.
Proof.
  split; [reflexivity|].
  exact (proj1
    (sessions_respect_the_mutex tt (fun _ => EmptyString)
       (fun l => Some (lap_state l))
       [(1100, OpLap (CallLap "a"%string)); (1200, OpStop); (1300, OpLapTime);
        (1400, OpString); (1500, OpStart); (1600, OpLaps)]
       (New_stopwatch (fun _ => EmptyString) 0 true 1000) 0 true 1000 1000)
    eq_refl).
Defined.

(** Laps at reference times 1500 and then 1200: the second lasts -300ns. *)
Lemma out_of_order_reference_time_gives_negative_lap_witness :
  IsZero (stop (New_stopwatch (MapData := unit) (fun _ => EmptyString) 0 true 1000)) = true /\
  is_duration (1500 - start (New_stopwatch (MapData := unit) (fun _ => EmptyString) 0 true 1000)) /\
  is_duration (1200 - start (New_stopwatch (MapData := unit) (fun _ => EmptyString) 0 true 1000)) /\
  is_duration (1200 - 1500) /\
  lap_duration
    (result (LapWithDataAndTime 1200 "b"%string tt) 1700
       (exec (LapWithDataAndTime 1500 "a"%string tt) 1600
          (New_stopwatch (MapData := unit) (fun _ => EmptyString) 0 true 1000)))
  = -300.
Proof.
  assert (H1 : is_duration (1500 - start (New_stopwatch (MapData := unit) (fun _ => EmptyString) 0 true 1000))).
  { vm_compute. split; discriminate. }
  assert (H2 : is_duration (1200 - start (New_stopwatch (MapData := unit) (fun _ => EmptyString) 0 true 1000))).
  { vm_compute. split; discriminate. }
  assert (H3 : is_duration (1200 - 1500)).
  { vm_compute. split; discriminate. }
  split; [reflexivity|]. split; [exact H1|]. split; [exact H2|]. split; [exact H3|].
  exact (proj1
    (out_of_order_reference_time_gives_negative_lap
       (New_stopwatch (MapData := unit) (fun _ => EmptyString) 0 true 1000)
       1600 1700 1500 1200 "a"%string "b"%string tt tt eq_refl H1 H2 H3)).
Defined.
